(** * PythonTA reporters: message aggregation and plain-text rendering

    A shallow embedding of [python_ta/reporters/core.py] and
    [python_ta/reporters/plain_reporter.py].

    Conventions of the embedding.
    - A Python [str] is a [string]; one [ascii] stands for one character.
    - A Python [int] is a [Z]; [None] is the [None] of an [option].
    - [self.messages] is a [defaultdict(list)] keyed by file path: a
      [gmap string (list Entry)] together with the read [dd_get], which
      creates the missing key the way [defaultdict.__getitem__] does.
    - The dictionaries returned by [group_messages] are iterated by the
      renderer, so they keep their insertion order: association lists.
    - A call that can raise returns an [option] ([None]: an exception left
      the call) or, where the partial mutation matters, the state reached
      together with an [Outcome]. *)

From Stdlib Require Import ZArith String Ascii List Lia Permutation.
From stdpp Require Import base option list gmap strings pretty.

Local Open Scope Z_scope.

(** ** Python string primitives *)

Module PyStr.

Definition len (s : string) : Z := Z.of_nat (String.length s).

(** Bounds of [s[start:stop]] after Python's adjustment of slice indices
    (step 1): negative indices count from the end, everything is clamped
    to [0, len]. *)
Definition adjust (n : Z) (i : Z) : Z :=
  if i <? 0 then Z.max 0 (i + n) else Z.min i n.

Definition lower (n : Z) (start : option Z) : Z :=
  match start with None => 0 | Some i => adjust n i end.

Definition upper (n : Z) (stop : option Z) : Z :=
  match stop with None => n | Some j => adjust n j end.

(** [s[start:stop]] *)
Definition slice (s : string) (start stop : option Z) : string :=
  let lo := lower (len s) start in
  let hi := upper (len s) stop in
  if lo <? hi then String.substring (Z.to_nat lo) (Z.to_nat (hi - lo)) s
  else "".




(** [s.startswith(p)] *)
Definition startswith (s p : string) : bool := String.prefix p s.

(** [n * s] for a one-character string [s]; empty when [n <= 0]. *)
Definition repeat (c : ascii) (n : Z) : string :=
  string_of_list_ascii (List.repeat c (Z.to_nat n)).

(** [s * n] for any string [s]. *)
Definition repeat_str (s : string) (n : Z) : string :=
  Nat.iter (Z.to_nat n) (String.append s) "".

(** [s.lstrip(" ")] *)
Fixpoint lstrip_space (s : string) : string :=
  match s with
  | String " " r => lstrip_space r
  | _ => s
  end.

Definition is_eol (c : ascii) : bool :=
  (Ascii.eqb c "010" || Ascii.eqb c "013")%bool.

(** [s.rstrip("\r\n")]: every trailing carriage return or line feed goes. *)
Fixpoint rstrip_eol (s : string) : string :=
  match s with
  | EmptyString => EmptyString
  | String c r =>
      match rstrip_eol r with
      | EmptyString => if is_eol c then EmptyString else String c EmptyString
      | r' => String c r'
      end
  end.

(** [s.split("\n")[0]] *)
Fixpoint first_line (s : string) : string :=
  match s with
  | EmptyString => EmptyString
  | String c r => if Ascii.eqb c "010" then EmptyString else String c (first_line r)
  end.

(** [bool(s)] *)
Definition truthy (s : string) : bool :=
  match s with EmptyString => false | _ => true end.

(** ["{}".format(i)] for an [int]. *)
Definition of_int (i : Z) : string := pretty i.

(** ["{:>3}".format(i)]: right-aligned in a field of width 3. *)
Definition rjust3 (i : Z) : string :=
  let d := of_int i in
  repeat " " (3 - len d) +:+ d.

End PyStr.

(** ** Data model *)

(** The fields of pylint's [Message] the reporters read. *)
Record Message := mkMessage {
  m_msg_id : string;
  m_symbol : string;
  m_msg : string;
  m_path : string;
  m_line : Z;
  m_column : Z;
  m_end_line : option Z;
  m_end_column : option Z
}.

(** A handle on a node of the parsed tree; the reporters only pass it on. *)
Definition NodeNG := N.

(** An entry of a message list: a pylint [Message], or a [NewMessage]
    wrapping an entry together with a node and a snippet. *)
Inductive Entry :=
| Plain (m : Message)
| NewMessage (message : Entry) (node : option NodeNG) (snippet : option string).

(** [NewMessage.__getattr__]: an attribute the wrapper does not have itself
    is looked up on the wrapped object. *)
Fixpoint original (e : Entry) : Message :=
  match e with
  | Plain m => m
  | NewMessage inner _ _ => original inner
  end.

Fixpoint msg_id (e : Entry) : string :=
  match e with Plain m => m_msg_id m | NewMessage inner _ _ => msg_id inner end.
Fixpoint symbol (e : Entry) : string :=
  match e with Plain m => m_symbol m | NewMessage inner _ _ => symbol inner end.
Fixpoint msg (e : Entry) : string :=
  match e with Plain m => m_msg m | NewMessage inner _ _ => msg inner end.
Fixpoint path (e : Entry) : string :=
  match e with Plain m => m_path m | NewMessage inner _ _ => path inner end.
Fixpoint line (e : Entry) : Z :=
  match e with Plain m => m_line m | NewMessage inner _ _ => line inner end.
Fixpoint column (e : Entry) : Z :=
  match e with Plain m => m_column m | NewMessage inner _ _ => column inner end.
Fixpoint end_line (e : Entry) : option Z :=
  match e with Plain m => m_end_line m | NewMessage inner _ _ => end_line inner end.
Fixpoint end_column (e : Entry) : option Z :=
  match e with Plain m => m_end_column m | NewMessage inner _ _ => end_column inner end.

(** [e.snippet]: an instance attribute of [NewMessage] only; on a pylint
    [Message] the lookup raises [AttributeError] (outer [None]). *)
Definition snippet_attr (e : Entry) : option (option string) :=
  match e with
  | Plain _ => None
  | NewMessage _ _ s => Some s
  end.

Definition node_attr (e : Entry) : option (option NodeNG) :=
  match e with
  | Plain _ => None
  | NewMessage _ n _ => Some n
  end.

(** Values stored in the dictionary built by [to_dict]. *)
Inductive Value :=
| VNone
| VInt (i : Z)
| VStr (s : string)
| VNode (n : NodeNG)
| VObj (e : Entry).

Definition v_opt_int (o : option Z) : Value :=
  match o with None => VNone | Some i => VInt i end.
Definition v_opt_str (o : option string) : Value :=
  match o with None => VNone | Some s => VStr s end.
Definition v_opt_node (o : option NodeNG) : Value :=
  match o with None => VNone | Some n => VNode n end.

(** [vars(obj)]: the instance dictionary. *)
Definition vars (e : Entry) : gmap string Value :=
  match e with
  | Plain m =>
      <["end_column" := v_opt_int (m_end_column m)]>
      (<["end_line" := v_opt_int (m_end_line m)]>
      (<["column" := VInt (m_column m)]>
      (<["line" := VInt (m_line m)]>
      (<["path" := VStr (m_path m)]>
      (<["msg" := VStr (m_msg m)]>
      (<["symbol" := VStr (m_symbol m)]>
      (<["msg_id" := VStr (m_msg_id m)]> ∅)))))))
  | NewMessage inner n s =>
      <["snippet" := v_opt_str s]>
      (<["node" := v_opt_node n]>
      (<["message" := VObj inner]> ∅))
  end.

(** [NewMessage.to_dict]; a pylint [Message] has no such method. *)
Definition to_dict (e : Entry) : option (gmap string Value) :=
  match e with
  | Plain _ => None
  | NewMessage inner _ s =>
      Some (<["column_end" := v_opt_int (end_column inner)]>
           (<["line_end" := v_opt_int (end_line inner)]>
           (<["snippet" := v_opt_str s]> (vars inner))))
  end.

(** Messages without a source code line to highlight. *)
Definition NO_SNIPPET : list string :=
  [ "invalid-name"; "unknown-option-value"; "module-name-violation";
    "config-parse-error"; "useless-option-value"; "unrecognized-option" ].

(** Checks enabled for the basic check (errors and forbidden constructs). *)
Definition ERROR_CHECKS : list string :=
  [ "used-before-assignment"; "undefined-variable"; "undefined-loop-variable";
    "not-in-loop"; "return-outside-function"; "duplicate-key"; "unreachable";
    "pointless-statement"; "pointless-string-statement"; "no-member";
    "not-callable"; "assignment-from-no-return"; "assignment-from-none";
    "no-value-for-parameter"; "too-many-function-args";
    "invalid-sequence-index"; "invalid-slice-index"; "invalid-slice-step";
    "invalid-unary-operand-type"; "unsupported-binary-operation";
    "unsupported-membership-test"; "unsubscriptable-object";
    "unbalanced-tuple-unpacking"; "unbalanced-dict-unpacking";
    "unpacking-non-sequence"; "function-redefined"; "duplicate-argument-name";
    "import-error"; "no-name-in-module"; "non-parent-init-called";
    "access-member-before-definition"; "method-hidden";
    "unexpected-special-method-signature"; "inherit-non-class";
    "duplicate-except"; "bad-except-order"; "raising-bad-type";
    "raising-non-exception"; "catching-non-exception"; "bad-indentation";
    "E0001"; "unexpected-keyword-arg"; "not-an-iterable";
    "nonexistent-operator"; "invalid-length-returned"; "abstract-method";
    "self-cls-assignment"; "dict-iter-missing-items"; "super-without-brackets";
    "modified-iterating-list"; "modified-iterating-dict";
    "modified-iterating-set";
    "missing-return-statement"; "invalid-range-index"; "one-iteration";
    "possibly-undefined";
    "incompatible-argument-type"; "incompatible-assignment";
    "list-item-type-mismatch"; "unsupported-operand-types";
    "union-attr-error"; "dict-item-type-mismatch";
    "forbidden-import"; "forbidden-python-syntax"; "forbidden-top-level-code" ].

(** [x in S] for a set of strings. *)
Definition str_in (x : string) (S : list string) : bool :=
  bool_decide (x ∈ S).

(** ** Snippet lines *)

(** The enumeration [LineType] of [node_printers]. *)
Inductive LineType := ERROR | CONTEXT | OTHER | DOCSTRING.

(** A Python [slice(start, stop)] as [render_message] builds them: both
    bounds are an [int] or [None], the step is always [None]. *)
Record Slice := mkSlice {
  start : option Z;
  stop : option Z
}.

(** [x or d] for an optional integer [x]: [None] and [0] are both falsy. *)
Definition or_int (x : option Z) (d : Z) : Z :=
  match x with
  | None => d
  | Some v => if v =? 0 then d else v
  end.

(** One record yielded by [render_message]:
    [(lineno, slice_, line_type, text)]. *)
Definition SnippetLine : Type := option Z * Slice * LineType * string.

(** ** The abstract reporter, [PythonTaReporter] *)

Module PythonTaReporter.

Definition _SPACE : ascii := " "%char.
Definition _BREAK : string := String "010" EmptyString.
Definition _PRE_LINE_NUM_SPACES : Z := 2.
Definition _NUM_LENGTH_SPACES : Z := 3.
Definition _AFTER_NUM_SPACES : Z := 2.

(** The class method [_colourify] of the base class: the text itself. *)
Definition _colourify (colour_class text : string) : string := text.

Section Rendering.
(** [self._colourify] as the instance's class resolves it. *)
Variable colourify : string → string → string.

Definition _add_line_number (lineno : option Z) (linetype : LineType) : string :=
  let pre_spaces := PyStr.repeat _SPACE _PRE_LINE_NUM_SPACES in
  let spaces := PyStr.repeat _SPACE _AFTER_NUM_SPACES in
  let number :=
    match lineno with
    | Some n => PyStr.rjust3 n
    | None => PyStr.repeat _SPACE _NUM_LENGTH_SPACES
    end in
  match linetype with
  | ERROR => pre_spaces +:+ colourify "gbold-line" number +:+ spaces
  | CONTEXT => pre_spaces +:+ colourify "grey-line" number +:+ spaces
  | OTHER => pre_spaces +:+ colourify "grey-line" number +:+ spaces
  | DOCSTRING => pre_spaces +:+ colourify "black-line" number +:+ spaces
  end.

Definition _add_line (lineno : option Z) (linetype : LineType)
    (slice_ : Slice) (text : string) : string :=
  let snippet := _add_line_number lineno linetype in
  let snippet :=
    match linetype with
    | ERROR =>
        let start_col := or_int (start slice_) 0 in
        let end_col := or_int (stop slice_) (PyStr.len text) in
        let pre := PyStr.slice text None (Some start_col) in
        let snippet :=
          if PyStr.truthy pre then snippet +:+ colourify "black" pre
          else snippet in
        let snippet :=
          snippet +:+
          colourify "highlight" (PyStr.slice text (start slice_) (stop slice_)) in
        let post := PyStr.slice text (Some end_col) None in
        if PyStr.truthy post then snippet +:+ colourify "black" post
        else snippet
    | CONTEXT => snippet +:+ colourify "grey" text
    | OTHER => snippet +:+ text
    | DOCSTRING =>
        let stripped := PyStr.lstrip_space text in
        let space_c := PyStr.len text - PyStr.len stripped in
        (snippet +:+ PyStr.repeat _SPACE space_c)
          +:+ colourify "highlight" stripped
    end in
  snippet +:+ _BREAK.

End Rendering.

(** *** Aggregator state *)

Record State := mkState {
  messages : gmap string (list Entry);
  source_lines : list string;
  module_name : string;
  current_file : string;
  out : string
}.

(** [__init__] *)
Definition init : State :=
  {| messages := ∅; source_lines := []; module_name := "";
     current_file := ""; out := "" |}.

Definition set_messages (d : gmap string (list Entry)) (st : State) : State :=
  {| messages := d; source_lines := source_lines st;
     module_name := module_name st; current_file := current_file st;
     out := out st |}.

(** [d[k]] on a [defaultdict(list)]: a missing key is created with an
    empty list, which is also the value read. *)
Definition dd_get (k : string) (d : gmap string (list Entry))
    : list Entry * gmap string (list Entry) :=
  match d !! k with
  | Some l => (l, d)
  | None => ([], <[k := []]> d)
  end.

(** The list a read of [self.messages[f]] would see. *)
Definition messages_of (st : State) (f : string) : list Entry :=
  default [] (messages st !! f).

(** [has_messages] *)
Definition has_messages (st : State) : bool :=
  bool_decide (map_Exists (λ _ l, length l ≠ 0%nat) (messages st)).

(** [handle_message] *)
Definition handle_message (m : Entry) (st : State) : State :=
  let '(curr, d) := dd_get (current_file st) (messages st) in
  set_messages (<[current_file st := curr ++ [m]]> d) st.

(** Only the [msgid] of a pylint [MessageDefinition] is read. *)
Record MessageDefinition := mkMessageDefinition { msgid : string }.

Section Aggregator.
(** [node_printers.render_message], a collaborator outside this module. *)
Variable render_message : Entry → option NodeNG → list string → list SnippetLine.
(** [self._add_line] as the instance's class resolves it. *)
Variable add_line : option Z → LineType → Slice → string → string.

Definition _build_snippet (st : State) (m : Entry) (node : option NodeNG) : string :=
  fold_left
    (λ code_snippet '(lineno, slice_, line_type, text),
       code_snippet +:+ add_line lineno line_type slice_ text)
    (render_message m node (source_lines st)) "".

Definition handle_node (msg_definition : MessageDefinition)
    (node : option NodeNG) (st : State) : State :=
  let '(curr_messages, d) := dd_get (current_file st) (messages st) in
  match last curr_messages with
  | Some m =>
      if bool_decide (msg_id m = msgid msg_definition) then
        let snippet :=
          if (str_in (symbol m) NO_SNIPPET
              || PyStr.startswith (msg m) "Invalid module")%bool
          then ""
          else _build_snippet st m node in
        set_messages
          (<[current_file st :=
               <[pred (length curr_messages) := NewMessage m node (Some snippet)]>
                 curr_messages]> d) st
      else set_messages d st
  | None => set_messages d st
  end.
End Aggregator.

(** *** Grouping *)

(** A [defaultdict(list)] in insertion order. *)
Definition Groups : Type := list (string * list Entry).

(** [d[k].append(v)] *)
Fixpoint dd_append (k : string) (v : Entry) (d : Groups) : Groups :=
  match d with
  | [] => [(k, [v])]
  | (k', l) :: r =>
      if decide (k' = k) then (k', l ++ [v]) :: r
      else (k', l) :: dd_append k v r
  end.

Definition is_error (m : Entry) : bool :=
  (str_in (msg_id m) ERROR_CHECKS || str_in (symbol m) ERROR_CHECKS)%bool.

(** One turn of the loop of [group_messages]. *)
Definition group_step (acc : Groups * Groups) (m : Entry) : Groups * Groups :=
  let '(error_msgs_by_type, style_msgs_by_type) := acc in
  if is_error m
  then (dd_append (msg_id m) m error_msgs_by_type, style_msgs_by_type)
  else (error_msgs_by_type, dd_append (msg_id m) m style_msgs_by_type).

Definition group_messages (msgs : list Entry) : Groups * Groups :=
  fold_left group_step msgs ([], []).

(** *** File switch *)

(** What [on_set_current_module] asks of the file system. Each call can
    raise instead of returning: [None]. *)
Record FileSystem := mkFileSystem {
  (** [str(Path(os.path.expandvars(p)).expanduser())]; [None] when the
      expansion raises, as [expanduser] does for a home directory that
      cannot be determined. *)
  fs_expand : string → option string;
  (** [Path.exists]; [None] when the test raises, as it does for a path
      the operating system refuses. *)
  fs_exists : string → option bool;
  (** [open(p, encoding="utf-8").readlines()]; [None] when opening or
      decoding raises. *)
  fs_readlines : string → option (list string)
}.

Inductive Outcome := Returned | Raised.

Definition on_set_current_module (fs : FileSystem) (module : string)
    (filepath : option string) (st : State) : State * Outcome :=
  match fs_expand fs module with
  | None => (st, Raised)
  | Some possible_config_path =>
      match fs_exists fs possible_config_path with
      | None => (st, Raised)
      | Some path_exists =>
          let filepath :=
            if (path_exists && bool_decide (filepath = None))%bool
            then Some possible_config_path
            else filepath in
          match filepath with
          | None => (st, Returned)
          | Some fp =>
              let d :=
                match messages st !! fp with
                | Some _ => messages st
                | None => <[fp := []]> (messages st)
                end in
              let st1 :=
                {| messages := d; source_lines := source_lines st;
                   module_name := module; current_file := fp; out := out st |} in
              match fs_readlines fs fp with
              | None => (st1, Raised)
              | Some lines =>
                  ({| messages := d; source_lines := map PyStr.rstrip_eol lines;
                      module_name := module; current_file := fp; out := out st |},
                   Returned)
              end
          end
      end
  end.

End PythonTaReporter.

(** ** The plain-text reporter, [PlainReporter] *)

Module PlainReporter.
Import PythonTaReporter.

Definition code_err_title : string :=
  "=== Code errors/forbidden usage (fix: high priority) ===".
Definition style_err_title : string :=
  "=== Style/convention errors (fix: before submission) ===".
Definition no_err_message : string :=
  "No problems detected, good job!" +:+ _BREAK +:+ _BREAK.
Definition no_snippet : string :=
  "No code to display for this message." +:+ _BREAK +:+ _BREAK.

(** [linter.config.pyta_number_of_messages]: an [int] or [float("inf")]. *)
Inductive MaxMessages :=
| Finite (n : Z)
| Infinity.

(** [max_messages != 0] *)
Definition max_nonzero (mx : MaxMessages) : bool :=
  match mx with Finite n => negb (n =? 0) | Infinity => true end.

(** [max_messages != float("inf")] *)
Definition max_not_inf (mx : MaxMessages) : bool :=
  match mx with Finite _ => true | Infinity => false end.

(** [max_messages < n] *)
Definition max_lt (mx : MaxMessages) (n : Z) : bool :=
  match mx with Finite k => k <? n | Infinity => false end.

(** [i == max_messages] *)
Definition max_eq (i : Z) (mx : MaxMessages) : bool :=
  match mx with Finite k => i =? k | Infinity => false end.

(** ["{}".format(max_messages)] *)
Definition max_format (mx : MaxMessages) : string :=
  match mx with Finite k => PyStr.of_int k | Infinity => "inf" end.

(** [str + x] where [x] must be a [str]: adding [None] raises. *)
Definition add_str (result : string) (x : option string) : option string :=
  match x with
  | Some s => Some (result +:+ s)
  | None => None
  end.

Section Rendering.
Variable colourify : string → string → string.
Variable max_messages : MaxMessages.

(** The body of the inner loop of [_colour_messages_by_type] for one
    occurrence, after the [break] test. *)
Definition occurrence (result : string) (m : Entry) : option string :=
  let msg_truncated := PyStr.first_line (msg m) in
  let result := result +:+ PyStr.repeat _SPACE 2 in
  let result :=
    result +:+
    (colourify "bold"
       ("[Line " +:+ PyStr.of_int (line m) +:+ "] " +:+ msg_truncated)
     +:+ _BREAK) in
  s ← snippet_attr m;
  result ← add_str result s;
  Some (result +:+ _BREAK).

(** [for i, msg in enumerate(msgs): ...], started at index [i]. *)
Fixpoint occurrences (i : Z) (msgs : list Entry) (result : string)
    : option string :=
  match msgs with
  | [] => Some result
  | m :: rest =>
      if (max_nonzero max_messages && max_eq i max_messages)%bool
      then Some result
      else
        result ← occurrence result m;
        occurrences (i + 1) rest result
  end.

(** The body of the outer loop for the group of [msg_id]. *)
Definition group (result : string) (msg_id : string) (msgs : list Entry)
    : option string :=
  let result := result +:+ colourify "bold" msg_id in
  first ← head msgs;
  let result :=
    result +:+ colourify "bold" (" (" +:+ symbol first +:+ ")  ") in
  let n := Z.of_nat (length msgs) in
  let result :=
    result +:+ ("Number of occurrences: " +:+ PyStr.of_int n +:+ ".") in
  let result :=
    if (max_nonzero max_messages && max_not_inf max_messages
        && max_lt max_messages n)%bool
    then result +:+ (" (First " +:+ max_format max_messages +:+ " shown).")
    else result in
  let result := result +:+ _BREAK in
  occurrences 0 msgs result.

Fixpoint groups (messages : Groups) (result : string) : option string :=
  match messages with
  | [] => Some result
  | (msg_id, msgs) :: rest =>
      result ← group result msg_id msgs;
      groups rest result
  end.

Definition _colour_messages_by_type (messages : Groups) : option string :=
  groups messages "".

(** The overline character, U+203E, as the bytes of its encoding; it
    counts as one character. *)
Definition _OVERLINE : string := "‾".

Definition _overline_helper (text prespace : string) : string :=
  let overline := PyStr.repeat_str _OVERLINE (PyStr.len text) in
  prespace +:+ overline +:+ _BREAK.

(** [_add_line] of the plain reporter: the line of the base class, and
    under an ERROR or DOCSTRING line a row that overlines the highlighted
    part. *)
Definition _add_line (lineno : option Z) (linetype : LineType)
    (slice_ : Slice) (text : string) : string :=
  let lineno_spaces :=
    _PRE_LINE_NUM_SPACES + _NUM_LENGTH_SPACES + _AFTER_NUM_SPACES in
  let snippet_so_far :=
    PythonTaReporter._add_line colourify lineno linetype slice_ text in
  match linetype with
  | ERROR =>
      let start_ := or_int (start slice_) 0 in
      let prespace := PyStr.repeat _SPACE (lineno_spaces + start_) in
      snippet_so_far
        +:+ _overline_helper (PyStr.slice text (start slice_) (stop slice_)) prespace
  | DOCSTRING =>
      let stripped := PyStr.lstrip_space text in
      let prespace :=
        PyStr.repeat _SPACE (lineno_spaces + PyStr.len text - PyStr.len stripped) in
      snippet_so_far +:+ _overline_helper stripped prespace
  | CONTEXT | OTHER => snippet_so_far
  end.

(** The section of one bucket: its groups, or the no-problems message
    when they render to the empty string. *)
Definition section_text (messages : Groups) : option string :=
  messages_result ← _colour_messages_by_type messages;
  Some (if PyStr.truthy messages_result then messages_result
        else no_err_message).

(** The text [print_messages] passes to [writeln]; [now] is what
    [_generate_report_date_time] returns. *)
Definition report (level : string) (now : string) (current_file : string)
    (msgs : list Entry) : option string :=
  let '(error_msgs, style_msgs) := group_messages msgs in
  let result :=
    "PyTA Report for: " +:+ colourify "bold" current_file +:+ _BREAK in
  let result := result +:+ (now +:+ _BREAK) in
  let result :=
    result +:+ colourify "code-heading" (code_err_title +:+ _BREAK) in
  errors ← section_text error_msgs;
  let result := result +:+ errors in
  if bool_decide (level = "all") then
    let result :=
      result +:+ colourify "style-heading" (style_err_title +:+ _BREAK) in
    styles ← section_text style_msgs;
    Some (result +:+ styles)
  else Some result.

(** [print_messages]: the report of the current file is written to the
    output, followed by the line break [writeln] adds. *)
Definition print_messages (level : string) (now : string) (st : State)
    : option State :=
  let '(msgs, d) := dd_get (current_file st) (messages st) in
  result ← report level now (current_file st) msgs;
  Some {| messages := d; source_lines := source_lines st;
          module_name := module_name st; current_file := current_file st;
          out := out st +:+ result +:+ _BREAK |}.
End Rendering.

End PlainReporter.

(** ** Predicates used in the statements *)

(** The slice of an ERROR line lies within the line: [0 ≤ start ≤ end ≤
    len(text)], an absent bound standing for [0] and [len(text)]. *)
Definition slice_within (slice_ : Slice) (text : string) : Prop :=
  0 ≤ default 0 (start slice_)
    ≤ default (PyStr.len text) (stop slice_) ≤ PyStr.len text.






(** Two groupings with the same rule keys in the same order, whose lists
    are related entry by entry. *)
Definition groups_rel (R : Entry → Entry → Prop)
    (g g' : PythonTaReporter.Groups) : Prop :=
  Forall2 (λ p p', p.1 = p'.1 ∧ Forall2 R p.2 p'.2) g g'.

(** [y] is [x], or [y] is the augmented entry [a] standing for [e]. *)
Definition same_or_augmented (e a x y : Entry) : Prop :=
  y = x ∨ (x = e ∧ y = a).

(** The list filed under the key [k] of a grouping, empty when the key is
    absent. *)
Fixpoint group_of (k : string) (g : PythonTaReporter.Groups) : list Entry :=
  match g with
  | [] => []
  | (k', l) :: r => if decide (k' = k) then l else group_of k r
  end.

(** The messages of [msgs] of bucket [b] ([true]: errors) and rule [k], in
    the order of [msgs]. *)
Definition of_bucket_and_rule (b : bool) (k : string) (msgs : list Entry)
    : list Entry :=
  filter (λ m, PythonTaReporter.is_error m = b ∧ msg_id m = k) msgs.

(** The messages of a grouping, group after group. *)
Definition flatten (g : PythonTaReporter.Groups) : list Entry :=
  concat g.*2.

(** The invariant of the loop of [group_messages] after the messages
    [seen]. *)
Definition grouped (seen : list Entry)
    (acc : PythonTaReporter.Groups * PythonTaReporter.Groups) : Prop :=
  NoDup acc.1.*1 ∧ NoDup acc.2.*1
  ∧ Forall (λ p, p.2 ≠ []) acc.1 ∧ Forall (λ p, p.2 ≠ []) acc.2
  ∧ (∀ k, group_of k acc.1 = of_bucket_and_rule true k seen)
  ∧ (∀ k, group_of k acc.2 = of_bucket_and_rule false k seen)
  ∧ flatten acc.1 ++ flatten acc.2 ≡ₚ seen.

(** ** Sample inputs *)

Module Sample.
Import PythonTaReporter.

Definition undefined_variable : Entry :=
  Plain (mkMessage "E0602" "undefined-variable" "Undefined variable 'x'"
           "a.py" 3 6 (Some 3) (Some 7)).

Definition trailing_whitespace : Entry :=
  Plain (mkMessage "C0303" "trailing-whitespace" "Trailing whitespace"
           "a.py" 1 9 None None).

Definition invalid_name : Entry :=
  Plain (mkMessage "C0103" "invalid-name"
           "Constant name 'x' doesn't conform to UPPER_CASE naming style"
           "a.py" 3 0 (Some 3) (Some 1)).

Definition source : list string := ["import os"; ""; "print(x + y)"].

(** A stand-in for [render_message]: the line of the message, as one
    ERROR record sliced by its columns. *)
Definition render_message (m : Entry) (node : option NodeNG)
    (source_lines : list string) : list SnippetLine :=
  [(Some (line m), mkSlice (Some (column m)) (end_column m), ERROR,
    default "" (source_lines !! Z.to_nat (line m - 1)))].

(** [self._add_line] of a plain reporter, which inherits the identity
    [_colourify]. *)
Definition add_line : option Z → LineType → Slice → string → string :=
  PlainReporter._add_line _colourify.

(** The snippet of the plain reporter for [undefined_variable]: line 3
    with column 6 highlighted and overlined. *)
Definition snippet_line_3 : string :=
  "    3  print(x + y)" +:+ _BREAK +:+ "             ‾" +:+ _BREAK.

(** The snippet for [trailing_whitespace]: line 1, whose slice starts at
    the end of the line, over an empty overline row. *)
Definition snippet_line_1 : string :=
  "    1  import os" +:+ _BREAK +:+ "                " +:+ _BREAK.

(** A [_colourify] that shows what it is given: the text between the
    name of its colour class and a closing mark. *)
Definition mark (colour_class text : string) : string :=
  "<" +:+ colour_class +:+ ">" +:+ text +:+ "</>".

(** A reporter that tracks [a.py] with its source loaded. *)
Definition tracking : State :=
  {| messages := {["a.py" := []]}; source_lines := source;
     module_name := "a"; current_file := "a.py"; out := "" |}.

(** A file system without [gone.py]: nothing exists, every read raises. *)
Definition empty_fs : FileSystem :=
  {| fs_expand := λ p, Some p; fs_exists := λ _, Some false;
     fs_readlines := λ _, None |}.

(** A file system whose only file is [a.py]. *)
Definition one_file_fs : FileSystem :=
  {| fs_expand := λ p, Some p;
     fs_exists := λ p, Some (bool_decide (p = "a.py"));
     fs_readlines := λ p,
       if bool_decide (p = "a.py")
       then Some ["import os" +:+ _BREAK; _BREAK; "print(x + y)" +:+ _BREAK]
       else None |}.

(** The same file system for a user whose home directory cannot be
    determined: expanding a name that starts with a tilde raises. *)
Definition no_home_fs : FileSystem :=
  {| fs_expand := λ p, if PyStr.startswith p "~" then None else Some p;
     fs_exists := fs_exists one_file_fs;
     fs_readlines := fs_readlines one_file_fs |}.

(** An augmented occurrence of one style rule at the line [n]. *)
Definition occurrence_at (n : Z) : Entry :=
  NewMessage
    (Plain (mkMessage "C0303" "trailing-whitespace" "Trailing whitespace"
              "a.py" n 9 None None))
    None (Some "").

Definition three_occurrences : list Entry :=
  [occurrence_at 1; occurrence_at 2; occurrence_at 3].

(** The reporter after an error on line 3 and a style issue on line 1 of
    [a.py], each followed by the [handle_node] of its rule. *)
Definition two_findings : State :=
  handle_node render_message add_line (mkMessageDefinition "C0303") (Some 2%N)
    (handle_message trailing_whitespace
       (handle_node render_message add_line (mkMessageDefinition "E0602") (Some 1%N)
          (handle_message undefined_variable tracking))).
End Sample.

(** ** What the plain reporter renders *)

(** The entry is a [NewMessage] whose snippet is a string. *)
Definition has_snippet (m : Entry) : bool :=
  match snippet_attr m with
  | Some (Some _) => true
  | _ => false
  end.

(** The strings of a list, one after the other. *)
Definition join (l : list string) : string :=
  foldr String.append "" l.

(** The text of one occurrence: its line and the first line of its message,
    then its snippet and a line break. *)
Definition occurrence_text (colourify : string → string → string) (m : Entry)
    : string :=
  "  " +:+ colourify "bold"
            ("[Line " +:+ PyStr.of_int (line m) +:+ "] "
             +:+ PyStr.first_line (msg m))
  +:+ PythonTaReporter._BREAK
  +:+ default "" (snippet_attr m ≫= id)
  +:+ PythonTaReporter._BREAK.

(** The header of a rule group up to its count of occurrences. *)
Definition group_header (colourify : string → string → string)
    (k : string) (msgs : list Entry) : string :=
  colourify "bold" k
  +:+ colourify "bold" (" (" +:+ default "" (symbol <$> head msgs) +:+ ")  ")
  +:+ "Number of occurrences: "
  +:+ PyStr.of_int (Z.of_nat (length msgs)) +:+ ".".

(** The head of a report: its title and the time it was generated. *)
Definition report_header (colourify : string → string → string)
    (now current_file : string) : string :=
  "PyTA Report for: " +:+ colourify "bold" current_file
  +:+ PythonTaReporter._BREAK +:+ now +:+ PythonTaReporter._BREAK.

(** ** What the aggregator keeps *)

(** The pylint messages recorded for the file [f], without their
    wrappers. *)
Definition originals (st : PythonTaReporter.State) (f : string) : list Message :=
  original <$> PythonTaReporter.messages_of st f.

(** Every entry of every file is a [NewMessage] whose snippet is a
    string. *)
Definition all_augmented (st : PythonTaReporter.State) : Prop :=
  map_Forall (λ _ l, forallb has_snippet l = true) (PythonTaReporter.messages st).



(** The strings of a list in the order of their first occurrence, each
    once. *)
Fixpoint distinct (l : list string) : list string :=
  match l with
  | [] => []
  | x :: r => x :: filter (λ y, y ≠ x) (distinct r)
  end.

(** The rule identifiers of the messages of bucket [b], one for each
    message, in the order of [msgs]. *)
Definition rules_of_bucket (b : bool) (msgs : list Entry) : list string :=
  msg_id <$> filter (λ m, PythonTaReporter.is_error m = b) msgs.

(** ** Line ends *)

(** Every character of [s] is a carriage return or a line feed. *)
Fixpoint all_eol (s : string) : bool :=
  match s with
  | EmptyString => true
  | String c r => PyStr.is_eol c && all_eol r
  end.

(** The last character of [s] is a carriage return or a line feed. *)
Fixpoint ends_with_eol (s : string) : bool :=
  match s with
  | EmptyString => false
  | String c EmptyString => PyStr.is_eol c
  | String _ r => ends_with_eol r
  end.

(** ** The output destination *)

Module Output.

(** The argument of [set_output]: [None], a string, or an object that is
    taken for an open stream. *)
Inductive Arg :=
| ArgNone
| ArgStr (s : string)
| ArgIO (handle : N).

(** A stream: [sys.stdout], a file opened for writing at a path, or the
    stream the caller passed. *)
Inductive Stream :=
| Stdout
| Opened (path : string)
| Given (handle : N).

(** The part of the reporter that [set_output] and [on_close] touch, with
    the streams closed so far, latest first. *)
Record State := mkState {
  out : Stream;
  should_close_out : bool;
  closed : list Stream
}.

(** [__init__]: pylint's base class sets [out] to [sys.stdout]. *)
Definition init : State :=
  {| out := Stdout; should_close_out := false; closed := [] |}.

(** What [set_output] asks of the operating system. *)
Record Os := mkOs {
  (** [os.path.expanduser] *)
  expanduser : string → string;
  (** [os.path.isdir] *)
  isdir : string → bool;
  (** [os.path.join] *)
  join : string → string → string;
  (** [open(p, "w", encoding="utf-8")] returns rather than raises *)
  writable : string → bool
}.

Section WithClass.
(** The class attribute [OUTPUT_FILENAME]. *)
Variable OUTPUT_FILENAME : string.

Definition set_output (os : Os) (arg : Arg) (st : State)
    : State * PythonTaReporter.Outcome :=
  match arg with
  | ArgNone =>
      ({| out := Stdout; should_close_out := should_close_out st;
          closed := closed st |}, PythonTaReporter.Returned)
  | ArgStr s =>
      if bool_decide (s = "-") then
        ({| out := Stdout; should_close_out := should_close_out st;
            closed := closed st |}, PythonTaReporter.Returned)
      else
        let p := expanduser os s in
        let p := if isdir os p then join os p OUTPUT_FILENAME else p in
        if writable os p then
          ({| out := Opened p; should_close_out := true;
              closed := closed st |}, PythonTaReporter.Returned)
        else (st, PythonTaReporter.Raised)
  | ArgIO h =>
      ({| out := Given h; should_close_out := should_close_out st;
          closed := closed st |}, PythonTaReporter.Returned)
  end.
End WithClass.

(** [on_close] *)
Definition on_close (st : State) : State :=
  if should_close_out st
  then {| out := out st; should_close_out := should_close_out st;
          closed := out st :: closed st |}
  else st.

(** The path [set_output] opens for the string [s]. *)
Definition target (OUTPUT_FILENAME : string) (os : Os) (s : string) : string :=
  if isdir os (expanduser os s)
  then join os (expanduser os s) OUTPUT_FILENAME
  else expanduser os s.

End Output.

(** [OUTPUT_FILENAME] of the plain reporter. *)
Definition plain_OUTPUT_FILENAME : string := "pyta_report.txt".

(** An operating system with the one directory [reports] and paths joined
    by a slash. *)
Definition sample_os : Output.Os :=
  {| Output.expanduser := λ p, p;
     Output.isdir := λ p, bool_decide (p = "reports");
     Output.join := λ d f, d +:+ "/" +:+ f;
     Output.writable := λ _, true |}.

(** Some character of [s] is a line feed. *)
Fixpoint has_line_feed (s : string) : bool :=
  match s with
  | EmptyString => false
  | String c r => Ascii.eqb c "010" || has_line_feed r
  end.

(** * Properties *)

(** ** Strings *)

Lemma str_app_nil_l (s : string) : "" +:+ s = s.
Proof. reflexivity. Qed.

Lemma str_app_cons (c : ascii) (a b : string) :
  String c a +:+ b = String c (a +:+ b).
Proof. reflexivity. Qed.

Lemma str_app_nil_r (s : string) : s +:+ "" = s.
Proof. induction s as [|c s IH]; [done|]. by rewrite str_app_cons, IH. Qed.

Lemma str_app_assoc (a b c : string) : (a +:+ b) +:+ c = a +:+ (b +:+ c).
Proof. induction a as [|x a IH]; [done|]. by rewrite !str_app_cons, IH. Qed.

Lemma str_length_app (a b : string) :
  String.length (a +:+ b) = (String.length a + String.length b)%nat.
Proof.
  induction a as [|x a IH]; [done|]. rewrite str_app_cons. cbn. by rewrite IH.
Qed.

Lemma truthy_length (s : string) :
  PyStr.truthy s = true ↔ (0 < String.length s)%nat.
Proof. destruct s; cbn; split; (done || lia). Qed.

Lemma truthy_app_l (a b : string) :
  PyStr.truthy a = true → PyStr.truthy (a +:+ b) = true.
Proof. rewrite !truthy_length, str_length_app. lia. Qed.

Lemma truthy_app_r (a b : string) :
  PyStr.truthy b = true → PyStr.truthy (a +:+ b) = true.
Proof. rewrite !truthy_length, str_length_app. lia. Qed.

(** Appending a string guarded by its own truth value is appending it. *)
Lemma guarded_app (f : string → string) (a b : string) :
  f "" = "" →
  (if PyStr.truthy b then a +:+ f b else a) = a +:+ f b.
Proof. intros Hf. destruct b; cbn; [by rewrite Hf, str_app_nil_r | done]. Qed.

Lemma substring_0_0 (s : string) : String.substring 0 0 s = "".
Proof. by destruct s. Qed.

Lemma substring_all (s : string) : String.substring 0 (String.length s) s = s.
Proof. induction s as [|c s IH]; [done|]. cbn. by rewrite IH. Qed.

(** A string is its prefix of length [a], the [b] characters that follow
    and the rest. *)
Lemma substring_split3 (s : string) (a b : nat) :
  (a + b ≤ String.length s)%nat →
  String.substring 0 a s
    +:+ String.substring a b s
    +:+ String.substring (a + b) (String.length s - (a + b)) s = s.
Proof.
  revert a b. induction s as [|c s IH]; intros a b Hab.
  - cbn in Hab. assert (a = 0%nat) as -> by lia. assert (b = 0%nat) as -> by lia.
    done.
  - destruct a as [|a].
    + destruct b as [|b].
      * cbn. by rewrite substring_all.
      * cbn in Hab. specialize (IH 0%nat b ltac:(lia)).
        rewrite substring_0_0, str_app_nil_l in IH.
        cbn [String.substring String.length Nat.add Nat.sub] in *.
        by rewrite str_app_nil_l, str_app_cons, IH.
    + cbn in Hab. specialize (IH a b ltac:(lia)).
      cbn [String.substring String.length Nat.add Nat.sub].
      by rewrite str_app_cons, IH.
Qed.

Lemma substring_n_0 (n : nat) (s : string) : String.substring n 0 s = "".
Proof. revert n. induction s as [|c s IH]; intros [|n]; cbn; auto. Qed.

Lemma substring_length (s : string) (n m : nat) :
  (n + m ≤ String.length s)%nat → String.length (String.substring n m s) = m.
Proof.
  revert n m. induction s as [|c s IH]; intros n m Hnm; cbn in Hnm.
  - assert (n = 0%nat) as -> by lia. assert (m = 0%nat) as -> by lia. done.
  - destruct n as [|n]; cbn.
    + destruct m as [|m]; [done|]. cbn. rewrite IH; [done | lia].
    + apply IH. lia.
Qed.


(** [s[start:stop]] as a substring between the adjusted bounds. *)
Lemma slice_substring (s : string) (start stop : option Z) :
  PyStr.slice s start stop =
  String.substring (Z.to_nat (PyStr.lower (PyStr.len s) start))
    (Z.to_nat (PyStr.upper (PyStr.len s) stop - PyStr.lower (PyStr.len s) start)) s.
Proof.
  unfold PyStr.slice. cbv zeta.
  set (lo := PyStr.lower _ _). set (hi := PyStr.upper _ _).
  destruct (Z.ltb_spec lo hi) as [Hlt|Hge]; [done|].
  assert (Z.to_nat (hi - lo) = 0%nat) as -> by lia.
  by rewrite substring_n_0.
Qed.

Lemma adjust_in_range (n i : Z) : 0 ≤ i ≤ n → PyStr.adjust n i = i.
Proof. intros ?. unfold PyStr.adjust. destruct (Z.ltb_spec i 0); lia. Qed.

Lemma adjust_above (n i : Z) : 0 ≤ n ≤ i → PyStr.adjust n i = n.
Proof. intros ?. unfold PyStr.adjust. destruct (Z.ltb_spec i 0); lia. Qed.

Lemma or_int_0 (x : option Z) : or_int x 0 = default 0 x.
Proof. destruct x as [v|]; cbn; [|done]. destruct (Z.eqb_spec v 0); lia. Qed.

Lemma or_int_nonzero (x : option Z) (d : Z) :
  x ≠ Some 0 → or_int x d = default d x.
Proof.
  destruct x as [v|]; cbn; [|done]. intros Hx.
  destruct (Z.eqb_spec v 0); [congruence | done].
Qed.

(** With the identity colouring and a slice within the line whose end is
    not the integer [0], the ERROR line is the gutter, the text of the line
    and the line break. *)
Lemma add_line_error_text (lineno : option Z) (slice_ : Slice) (text : string) :
  slice_within slice_ text →
  stop slice_ ≠ Some 0 →
  PythonTaReporter._add_line PythonTaReporter._colourify lineno ERROR slice_ text =
  PythonTaReporter._add_line_number PythonTaReporter._colourify lineno ERROR
    +:+ text +:+ PythonTaReporter._BREAK.
Proof.
  intros Hin Hstop. unfold slice_within in Hin.
  unfold PythonTaReporter._add_line.
  cbv zeta. rewrite or_int_0, (or_int_nonzero _ _ Hstop).
  set (a := default 0 (start slice_)) in *.
  set (b := default (PyStr.len text) (stop slice_)) in *.
  rewrite !(guarded_app (PythonTaReporter._colourify "black")) by done.
  unfold PythonTaReporter._colourify.
  rewrite !slice_substring.
  assert (PyStr.lower (PyStr.len text) (start slice_) = a) as ->.
  { subst a. destruct (start slice_) as [v|]; cbn in *; [|done].
    apply adjust_in_range. lia. }
  assert (PyStr.upper (PyStr.len text) (stop slice_) = b) as ->.
  { subst b. destruct (stop slice_) as [v|]; cbn in *; [|done].
    apply adjust_in_range. lia. }
  cbn [PyStr.lower PyStr.upper].
  rewrite !adjust_in_range by lia.
  rewrite !str_app_assoc. f_equal.
  rewrite <- str_app_assoc, <- str_app_assoc. f_equal.
  rewrite str_app_assoc.
  rewrite Z.sub_0_r.
  pose proof (substring_split3 text (Z.to_nat a) (Z.to_nat (b - a))) as Hs.
  replace (Z.to_nat a + Z.to_nat (b - a))%nat with (Z.to_nat b) in Hs by lia.
  replace (String.length text - Z.to_nat b)%nat
    with (Z.to_nat (PyStr.len text - b)) in Hs by (unfold PyStr.len; lia).
  apply Hs. unfold PyStr.len in *. lia.
Qed.

(** ** ERROR lines *)













(** *** Slices with a step *)







(** The scenario of C6 on the line [0123456789]. *)
Example add_line_error_start_five :
  PythonTaReporter._add_line Sample.mark (Some 1) ERROR
    (mkSlice (Some 5) None) "0123456789" =
  "  <gbold-line>  1</>  <black>01234</><highlight>56789</>"
    +:+ PythonTaReporter._BREAK.
Proof. by vm_compute. Qed.

(** C9, at the input where the code loses the line. A slice whose end is
    the integer [0] satisfies [0 ≤ start ≤ end ≤ len(text)], yet the
    rendered ERROR line has an empty body: [slice_.stop or len(text)] takes
    the end [0] for an absent one, so the text after the span is cut at
    [len(text)] while the span itself is cut at [0]. *)
Theorem add_line_error_stop_zero_loses_text :
  slice_within (mkSlice (Some 0) (Some 0)) "abc"
  ∧ PythonTaReporter._add_line PythonTaReporter._colourify (Some 3) ERROR
      (mkSlice (Some 0) (Some 0)) "abc" =
    PythonTaReporter._add_line_number PythonTaReporter._colourify (Some 3) ERROR
      +:+ "" +:+ PythonTaReporter._BREAK
  ∧ PythonTaReporter._add_line PythonTaReporter._colourify (Some 3) ERROR
      (mkSlice (Some 0) (Some 0)) "abc" ≠
    PythonTaReporter._add_line_number PythonTaReporter._colourify (Some 3) ERROR
      +:+ "abc" +:+ PythonTaReporter._BREAK.
Proof.
  split; [|split].
  - unfold slice_within, PyStr.len. cbn. lia.
  - by vm_compute.
  - by vm_compute.
Qed.

(** ** Augmented messages *)

Section GroupsRel.
Import PythonTaReporter.
Variable R : Entry → Entry → Prop.
Hypothesis R_msg_id : ∀ x y, R x y → msg_id x = msg_id y.
Hypothesis R_symbol : ∀ x y, R x y → symbol x = symbol y.

Lemma dd_append_rel (k : string) (v v' : Entry) (g g' : Groups) :
  R v v' → groups_rel R g g' →
  groups_rel R (dd_append k v g) (dd_append k v' g').
Proof.
  intros Hv Hg. induction Hg as [|[k1 l1] [k2 l2] g g' [Hk Hl] Hg IH]; cbn in *.
  - repeat constructor; done.
  - subst k2. case_decide.
    + constructor; [|done]. split; [done|]. cbn. apply Forall2_app; auto.
    + constructor; [|done]. by split.
Qed.

Lemma is_error_rel (x y : Entry) : R x y → is_error x = is_error y.
Proof.
  intros Hxy. unfold is_error.
  by rewrite (R_msg_id _ _ Hxy), (R_symbol _ _ Hxy).
Qed.

Lemma group_fold_rel (l l' : list Entry) (acc acc' : Groups * Groups) :
  Forall2 R l l' →
  groups_rel R acc.1 acc'.1 → groups_rel R acc.2 acc'.2 →
  groups_rel R (fold_left group_step l acc).1 (fold_left group_step l' acc').1
  ∧ groups_rel R (fold_left group_step l acc).2 (fold_left group_step l' acc').2.
Proof.
  intros Hl. revert acc acc'.
  induction Hl as [|x y l l' Hxy Hl IH]; intros [e0 s0] [e0' s0'] He Hs; [done|].
  cbn [fold_left]. apply IH; unfold group_step;
    rewrite <- (is_error_rel _ _ Hxy), <- (R_msg_id _ _ Hxy);
    destruct (is_error x); cbn in *; auto using dd_append_rel.
Qed.

Lemma group_messages_rel (l l' : list Entry) :
  Forall2 R l l' →
  groups_rel R (group_messages l).1 (group_messages l').1
  ∧ groups_rel R (group_messages l).2 (group_messages l').2.
Proof. intros Hl. apply group_fold_rel; by try constructor. Qed.
End GroupsRel.

Lemma same_or_augmented_msg_id (e : Entry) (node : option NodeNG)
    (snippet : option string) (x y : Entry) :
  same_or_augmented e (NewMessage e node snippet) x y → msg_id x = msg_id y.
Proof. by intros [->|[-> ->]]. Qed.

Lemma same_or_augmented_symbol (e : Entry) (node : option NodeNG)
    (snippet : option string) (x y : Entry) :
  same_or_augmented e (NewMessage e node snippet) x y → symbol x = symbol y.
Proof. by intros [->|[-> ->]]. Qed.

(** C10. Augmentation preserves every field of the original diagnostic.
    Read through [NewMessage e node snippet], the rule identifier, symbol,
    message text, file, line, column, end line and end column are those of
    [e]; [group_messages] puts the augmented entry in the bucket and under
    the key of [e] (alone in a list, and in place of [e] inside any list);
    and [to_dict] reports [line_end] and [column_end] equal to the original
    [end_line] and [end_column], next to the snippet. *)
Theorem newmessage_preserves_fields
    (e : Entry) (node : option NodeNG) (snippet : option string) :
  let a := NewMessage e node snippet in
  (msg_id a = msg_id e ∧ symbol a = symbol e ∧ msg a = msg e
   ∧ path a = path e ∧ line a = line e ∧ column a = column e
   ∧ end_line a = end_line e ∧ end_column a = end_column e
   ∧ original a = original e)
  ∧ PythonTaReporter.is_error a = PythonTaReporter.is_error e
  ∧ PythonTaReporter.group_messages [a] =
      (if PythonTaReporter.is_error e
       then ([(msg_id e, [a])], [])
       else ([], [(msg_id e, [a])]))
  ∧ (∀ before after : list Entry,
       groups_rel (same_or_augmented e a)
         (PythonTaReporter.group_messages (before ++ e :: after)).1
         (PythonTaReporter.group_messages (before ++ a :: after)).1
       ∧ groups_rel (same_or_augmented e a)
         (PythonTaReporter.group_messages (before ++ e :: after)).2
         (PythonTaReporter.group_messages (before ++ a :: after)).2)
  ∧ (∃ d : gmap string Value,
       to_dict a = Some d
       ∧ d !! "line_end" = Some (v_opt_int (end_line e))
       ∧ d !! "column_end" = Some (v_opt_int (end_column e))
       ∧ d !! "snippet" = Some (v_opt_str snippet)).
Proof.
  intros a. split; [by repeat split|]. split; [done|]. split; [|split].
  - unfold PythonTaReporter.group_messages, PythonTaReporter.group_step.
    cbn [fold_left]. change (PythonTaReporter.is_error a) with (PythonTaReporter.is_error e).
    by destruct (PythonTaReporter.is_error e).
  - intros before after.
    apply group_messages_rel.
    + apply same_or_augmented_msg_id.
    + apply same_or_augmented_symbol.
    + apply Forall2_app.
      * apply Forall_Forall2_diag, Forall_forall. intros x _. by left.
      * constructor; [by right|].
        apply Forall_Forall2_diag, Forall_forall. intros x _. by left.
  - eexists. split; [done|]. repeat split.
    + rewrite lookup_insert_ne by done. by rewrite lookup_insert_eq.
    + by rewrite lookup_insert_eq.
    + rewrite !lookup_insert_ne by done. by rewrite lookup_insert_eq.
Qed.

(** ** Grouping *)

Section Grouping.
Import PythonTaReporter.

Lemma group_of_dd_append (k k' : string) (v : Entry) (g : Groups) :
  group_of k (dd_append k' v g) =
  if decide (k' = k) then group_of k g ++ [v] else group_of k g.
Proof.
  induction g as [|[k1 l1] g IH]; cbn.
  - by repeat case_decide.
  - destruct (decide (k1 = k')) as [->|Hne]; cbn.
    + by repeat case_decide.
    + rewrite IH. repeat case_decide; congruence.
Qed.

Lemma dd_append_keys (k : string) (v : Entry) (g : Groups) :
  (dd_append k v g).*1 = if decide (k ∈ g.*1) then g.*1 else g.*1 ++ [k].
Proof.
  induction g as [|[k1 l1] g IH]; cbn.
  - case_decide as Hin; [by apply elem_of_nil in Hin | done].
  - destruct (decide (k1 = k)) as [->|Hne]; cbn.
    + rewrite decide_True; [done | by left].
    + rewrite IH. destruct (decide (k ∈ g.*1)) as [Hin|Hnin].
      * rewrite decide_True; [done | by right].
      * rewrite decide_False; [done|]. intros [?|?]%elem_of_cons; congruence.
Qed.

Lemma dd_append_NoDup (k : string) (v : Entry) (g : Groups) :
  NoDup g.*1 → NoDup (dd_append k v g).*1.
Proof.
  intros Hnd. rewrite dd_append_keys. case_decide as Hin; [done|].
  apply NoDup_app. split; [done|]. split; [|apply NoDup_singleton].
  intros x Hx ->%list_elem_of_singleton. done.
Qed.

Lemma dd_append_flatten (k : string) (v : Entry) (g : Groups) :
  flatten (dd_append k v g) ≡ₚ flatten g ++ [v].
Proof.
  unfold flatten. induction g as [|[k1 l1] g IH]; cbn; [done|].
  case_decide; cbn.
  - rewrite <- !(assoc_L (++)). f_equiv. apply Permutation_app_comm.
  - by rewrite IH, (assoc_L (++)).
Qed.

(** In a grouping with distinct keys, an entry of the grouping is what
    [group_of] reads under its key. *)
Lemma group_of_elem (k : string) (l : list Entry) (g : Groups) :
  NoDup g.*1 → (k, l) ∈ g → group_of k g = l.
Proof.
  induction g as [|[k1 l1] g IH]; cbn; intros Hnd Hin.
  - by apply elem_of_nil in Hin.
  - apply NoDup_cons in Hnd as [Hk1 Hnd].
    apply elem_of_cons in Hin as [[= -> ->]|Hin].
    + by rewrite decide_True.
    + rewrite decide_False; [by apply IH|].
      intros ->. apply Hk1. apply list_elem_of_fmap. by exists (k, l).
Qed.

Lemma dd_append_nonempty (k : string) (v : Entry) (g : Groups) :
  Forall (λ p, p.2 ≠ []) g → Forall (λ p, p.2 ≠ []) (dd_append k v g).
Proof.
  induction 1 as [|[k1 l1] g Hl Hg IH]; cbn.
  - constructor; [done | constructor].
  - case_decide; constructor; auto. cbn. by destruct l1.
Qed.

Lemma of_bucket_and_rule_snoc (b : bool) (k : string) (l : list Entry) (m : Entry) :
  of_bucket_and_rule b k (l ++ [m]) =
  of_bucket_and_rule b k l
    ++ (if decide (is_error m = b ∧ msg_id m = k) then [m] else []).
Proof. unfold of_bucket_and_rule. rewrite filter_app. f_equal. Qed.

Lemma grouped_nil : grouped [] ([], []).
Proof.
  unfold grouped. cbn. split_and!; try constructor; done.
Qed.

Lemma grouped_step (seen : list Entry) (acc : Groups * Groups) (m : Entry) :
  grouped seen acc → grouped (seen ++ [m]) (group_step acc m).
Proof.
  destruct acc as [e s].
  unfold grouped, group_step. cbn [fst snd].
  intros (Hne & Hns & Hfe & Hfs & He & Hs & Hp).
  destruct (is_error m) eqn:Hm; cbn [fst snd].
  - split_and!; auto using dd_append_NoDup, dd_append_nonempty.
    + intros k. rewrite group_of_dd_append, of_bucket_and_rule_snoc, He, Hm.
      destruct (decide (msg_id m = k)).
      * by rewrite decide_True.
      * rewrite decide_False by (intros [? ?]; congruence). by rewrite app_nil_r.
    + intros k. rewrite of_bucket_and_rule_snoc, Hs, Hm.
      rewrite decide_False by (intros [? ?]; congruence). by rewrite app_nil_r.
    + rewrite dd_append_flatten, <- Hp.
      rewrite <- !(assoc_L (++)). f_equiv. apply Permutation_app_comm.
  - split_and!; auto using dd_append_NoDup, dd_append_nonempty.
    + intros k. rewrite of_bucket_and_rule_snoc, He, Hm.
      rewrite decide_False by (intros [? ?]; congruence). by rewrite app_nil_r.
    + intros k. rewrite group_of_dd_append, of_bucket_and_rule_snoc, Hs, Hm.
      destruct (decide (msg_id m = k)).
      * by rewrite decide_True.
      * rewrite decide_False by (intros [? ?]; congruence). by rewrite app_nil_r.
    + by rewrite dd_append_flatten, (assoc_L (++)), Hp.
Qed.

Lemma grouped_fold (msgs seen : list Entry) (acc : Groups * Groups) :
  grouped seen acc → grouped (seen ++ msgs) (fold_left group_step msgs acc).
Proof.
  revert seen acc. induction msgs as [|m msgs IH]; intros seen acc Hacc; cbn.
  - by rewrite app_nil_r.
  - rewrite (cons_middle m), (assoc_L (++)). by apply IH, grouped_step.
Qed.

Lemma group_messages_grouped (msgs : list Entry) :
  grouped msgs (group_messages msgs).
Proof. apply (grouped_fold msgs []), grouped_nil. Qed.
End Grouping.

Lemma group_of_nonempty_elem (k : string) (g : PythonTaReporter.Groups) :
  group_of k g ≠ [] → (k, group_of k g) ∈ g.
Proof.
  induction g as [|[k1 l1] g IH]; cbn; [done|].
  case_decide as Hk; [subst; left | right; auto].
Qed.

Lemma elem_of_flatten (m : Entry) (g : PythonTaReporter.Groups) :
  m ∈ flatten g ↔ ∃ k l, (k, l) ∈ g ∧ m ∈ l.
Proof.
  unfold flatten. induction g as [|[k1 l1] g IH]; cbn.
  - split; [by intros ?%elem_of_nil|]. by intros (k & l & ?%elem_of_nil & _).
  - rewrite elem_of_app, IH. split.
    + intros [Hm|(k & l & Hin & Hm)].
      * exists k1, l1. split; [by left | done].
      * exists k, l. split; [by right | done].
    + intros (k & l & [[= -> ->]|Hin]%elem_of_cons & Hm); [by left|].
      right. by exists k, l.
Qed.

Lemma is_error_checks (m : Entry) :
  PythonTaReporter.is_error m = true
  ↔ msg_id m ∈ ERROR_CHECKS ∨ symbol m ∈ ERROR_CHECKS.
Proof.
  unfold PythonTaReporter.is_error, str_in.
  rewrite orb_true_iff, !bool_decide_eq_true. done.
Qed.

(** The lists of the two buckets: non-empty, and the messages of their
    bucket and rule in input order. *)
Lemma error_group_list (msgs : list Entry) (k : string) (l : list Entry) :
  (k, l) ∈ (PythonTaReporter.group_messages msgs).1 →
  l ≠ [] ∧ l = of_bucket_and_rule true k msgs.
Proof.
  destruct (group_messages_grouped msgs) as (Hne & _ & Hfe & _ & He & _).
  intros Hin. split.
  - by apply (proj1 (Forall_forall _ _) Hfe (k, l)).
  - by rewrite <- He, (group_of_elem k l _ Hne).
Qed.

Lemma style_group_list (msgs : list Entry) (k : string) (l : list Entry) :
  (k, l) ∈ (PythonTaReporter.group_messages msgs).2 →
  l ≠ [] ∧ l = of_bucket_and_rule false k msgs.
Proof.
  destruct (group_messages_grouped msgs) as (_ & Hns & _ & Hfs & _ & Hs & _).
  intros Hin. split.
  - by apply (proj1 (Forall_forall _ _) Hfs (k, l)).
  - by rewrite <- Hs, (group_of_elem k l _ Hns).
Qed.

(** A bucket is empty exactly when no message of the input belongs to it. *)
Lemma error_bucket_empty (msgs : list Entry) :
  (PythonTaReporter.group_messages msgs).1 = []
  ↔ Forall (λ m, PythonTaReporter.is_error m = false) msgs.
Proof.
  destruct (group_messages_grouped msgs) as (_ & _ & _ & _ & He & _ & Hp).
  split.
  - intros Hnil. apply Forall_forall. intros m Hm.
    destruct (PythonTaReporter.is_error m) eqn:Hb; [|done]. exfalso.
    apply (elem_of_nil m).
    assert (m ∈ of_bucket_and_rule true (msg_id m) msgs) as Hin
      by by apply list_elem_of_filter.
    by rewrite <- He, Hnil in Hin.
  - intros Hall.
    destruct (PythonTaReporter.group_messages msgs).1 as [|[k l] g] eqn:Hg; [done|].
    exfalso. destruct (error_group_list msgs k l) as [Hl ->]; [rewrite Hg; by left|].
    destruct (of_bucket_and_rule true k msgs) as [|x l'] eqn:Hf; [done|].
    assert (x ∈ of_bucket_and_rule true k msgs) as Hx by (rewrite Hf; by left).
    apply list_elem_of_filter in Hx as [[Hb _] Hx].
    apply (proj1 (Forall_forall _ _) Hall) in Hx. congruence.
Qed.

Lemma style_bucket_empty (msgs : list Entry) :
  (PythonTaReporter.group_messages msgs).2 = []
  ↔ Forall (λ m, PythonTaReporter.is_error m = true) msgs.
Proof.
  destruct (group_messages_grouped msgs) as (_ & _ & _ & _ & _ & Hs & Hp).
  split.
  - intros Hnil. apply Forall_forall. intros m Hm.
    destruct (PythonTaReporter.is_error m) eqn:Hb; [done|]. exfalso.
    apply (elem_of_nil m).
    assert (m ∈ of_bucket_and_rule false (msg_id m) msgs) as Hin
      by by apply list_elem_of_filter.
    by rewrite <- Hs, Hnil in Hin.
  - intros Hall.
    destruct (PythonTaReporter.group_messages msgs).2 as [|[k l] g] eqn:Hg; [done|].
    exfalso. destruct (style_group_list msgs k l) as [Hl ->]; [rewrite Hg; by left|].
    destruct (of_bucket_and_rule false k msgs) as [|x l'] eqn:Hf; [done|].
    assert (x ∈ of_bucket_and_rule false k msgs) as Hx by (rewrite Hf; by left).
    apply list_elem_of_filter in Hx as [[Hb _] Hx].
    apply (proj1 (Forall_forall _ _) Hall) in Hx. congruence.
Qed.


(** C2. [group_messages] is a total, stable partition. A message goes to
    the error bucket exactly when its [msg_id] or its [symbol] is in
    [ERROR_CHECKS], and to the style bucket otherwise; each bucket has one
    non-empty list per rule, which holds the messages of that bucket and
    rule in their order in the input; every input message is filed under its
    rule in its own bucket and occurs nowhere in the other; and the lists of
    both buckets together are the input messages, each as often as in the
    input. *)
Theorem group_messages_partition (msgs : list Entry) :
  let errs := (PythonTaReporter.group_messages msgs).1 in
  let styles := (PythonTaReporter.group_messages msgs).2 in
  (∀ m : Entry,
     PythonTaReporter.is_error m = true
     ↔ msg_id m ∈ ERROR_CHECKS ∨ symbol m ∈ ERROR_CHECKS)
  ∧ (NoDup errs.*1 ∧ NoDup styles.*1)
  ∧ (∀ k l, (k, l) ∈ errs → l ≠ [] ∧ l = of_bucket_and_rule true k msgs)
  ∧ (∀ k l, (k, l) ∈ styles → l ≠ [] ∧ l = of_bucket_and_rule false k msgs)
  ∧ (∀ m, m ∈ msgs →
       if PythonTaReporter.is_error m
       then (msg_id m, of_bucket_and_rule true (msg_id m) msgs) ∈ errs
            ∧ m ∉ flatten styles
       else (msg_id m, of_bucket_and_rule false (msg_id m) msgs) ∈ styles
            ∧ m ∉ flatten errs)
  ∧ flatten errs ++ flatten styles ≡ₚ msgs.
Proof.
  intros errs styles.
  destruct (group_messages_grouped msgs)
    as (Hne & Hns & Hfe & Hfs & He & Hs & Hp).
  fold errs in Hne, Hfe, He, Hp. fold styles in Hns, Hfs, Hs, Hp.
  pose proof (error_group_list msgs) as Herrs. fold errs in Herrs.
  pose proof (style_group_list msgs) as Hstyles. fold styles in Hstyles.
  split_and!; try done.
  - apply is_error_checks.
  - intros m Hm. destruct (PythonTaReporter.is_error m) eqn:Hb.
    + split.
      * rewrite <- He. apply group_of_nonempty_elem. rewrite He.
        intros Hnil. apply (elem_of_nil m). rewrite <- Hnil.
        unfold of_bucket_and_rule. by apply list_elem_of_filter.
      * intros (k & l & Hin & Hml)%elem_of_flatten.
        apply Hstyles in Hin as [_ ->]. unfold of_bucket_and_rule in Hml.
        apply list_elem_of_filter in Hml as [[? _] _]. congruence.
    + split.
      * rewrite <- Hs. apply group_of_nonempty_elem. rewrite Hs.
        intros Hnil. apply (elem_of_nil m). rewrite <- Hnil.
        unfold of_bucket_and_rule. by apply list_elem_of_filter.
      * intros (k & l & Hin & Hml)%elem_of_flatten.
        apply Herrs in Hin as [_ ->]. unfold of_bucket_and_rule in Hml.
        apply list_elem_of_filter in Hml as [[? _] _]. congruence.
Qed.

(** ** The aggregator *)

Section AggregatorFacts.
Import PythonTaReporter.

Lemma dd_get_list (k : string) (d : gmap string (list Entry)) :
  (dd_get k d).1 = default [] (d !! k).
Proof. unfold dd_get. by destruct (d !! k). Qed.

Lemma dd_get_lookup (k : string) (d : gmap string (list Entry)) :
  (dd_get k d).2 !! k = Some (default [] (d !! k)).
Proof.
  unfold dd_get. destruct (d !! k) eqn:Hk; cbn; [done|].
  by rewrite lookup_insert_eq.
Qed.

(** Creating the missing key changes no list a read would see. *)
Lemma dd_get_view (k f : string) (d : gmap string (list Entry)) :
  default [] ((dd_get k d).2 !! f) = default [] (d !! f).
Proof.
  unfold dd_get. destruct (d !! k) eqn:Hk; cbn; [done|].
  destruct (decide (k = f)) as [->|Hne].
  - by rewrite lookup_insert_eq, Hk.
  - by rewrite lookup_insert_ne.
Qed.

Lemma dd_get_keeps (k f : string) (l : list Entry) (d : gmap string (list Entry)) :
  d !! f = Some l → (dd_get k d).2 !! f = Some l.
Proof.
  intros Hf. unfold dd_get. destruct (d !! k) eqn:Hk; cbn; [done|].
  rewrite lookup_insert_ne; [done|]. congruence.
Qed.

Lemma dd_get_adds_empty (k f : string) (l : list Entry) (d : gmap string (list Entry)) :
  (dd_get k d).2 !! f = Some l → d !! f = Some l ∨ (f = k ∧ l = []).
Proof.
  unfold dd_get. destruct (d !! k) eqn:Hk; cbn; [by left|].
  intros [[-> <-]|[_ ?]]%lookup_insert_Some; [by right | by left].
Qed.

Lemma dd_get_present (k : string) (d : gmap string (list Entry)) :
  is_Some (d !! k) → (dd_get k d).2 = d.
Proof. intros [l Hl]. unfold dd_get. by rewrite Hl. Qed.

(** [has_messages] only depends on the lists a read would see. *)
Lemma has_messages_view (st : State) :
  has_messages st = true ↔ ∃ f, messages_of st f ≠ [].
Proof.
  unfold has_messages, messages_of. rewrite bool_decide_eq_true, map_Exists_lookup.
  split.
  - intros (f & l & Hf & Hl). exists f. rewrite Hf. cbn. by destruct l.
  - intros (f & Hf). destruct (messages st !! f) as [l|] eqn:Hl; [|done].
    exists f, l. split; [done|]. by destruct l.
Qed.

Lemma has_messages_ext (st st' : State) :
  (∀ f, messages_of st' f = messages_of st f) →
  has_messages st' = has_messages st.
Proof.
  intros Hv. apply eq_true_iff_eq. rewrite !has_messages_view.
  by setoid_rewrite Hv.
Qed.

Lemma insert_last (l0 : list Entry) (m x : Entry) :
  <[pred (length (l0 ++ [m])) := x]> (l0 ++ [m]) = l0 ++ [x].
Proof.
  rewrite length_app. cbn [length].
  replace (pred (length l0 + 1)) with (length l0 + 0)%nat by lia.
  by rewrite insert_app_r.
Qed.

Section WithPrinter.
Variable render_message : Entry → option NodeNG → list string → list SnippetLine.
Variable add_line : option Z → LineType → Slice → string → string.

Lemma handle_node_fields (mdef : MessageDefinition) (node : option NodeNG)
    (st : State) :
  let st' := handle_node render_message add_line mdef node st in
  current_file st' = current_file st ∧ source_lines st' = source_lines st
  ∧ module_name st' = module_name st ∧ out st' = out st.
Proof.
  unfold handle_node. destruct (dd_get _ _) as [l d].
  destruct (last l) as [m|]; [case_bool_decide|]; done.
Qed.

Lemma handle_node_other_file (mdef : MessageDefinition) (node : option NodeNG)
    (st : State) (f : string) :
  f ≠ current_file st →
  messages_of (handle_node render_message add_line mdef node st) f =
  messages_of st f.
Proof.
  intros Hf. unfold handle_node, messages_of.
  pose proof (dd_get_view (current_file st) f (messages st)) as Hv.
  destruct (dd_get _ _) as [l d]. cbn [snd] in Hv.
  destruct (last l) as [m|]; [case_bool_decide|]; cbn; try done.
  by rewrite lookup_insert_ne.
Qed.

Lemma handle_node_on_empty (mdef : MessageDefinition) (node : option NodeNG)
    (st : State) :
  messages_of st (current_file st) = [] →
  messages (handle_node render_message add_line mdef node st) =
  (dd_get (current_file st) (messages st)).2.
Proof.
  unfold handle_node, messages_of. rewrite <- dd_get_list.
  destruct (dd_get _ _) as [l d]. cbn. by intros ->.
Qed.

Lemma handle_node_other_rule (mdef : MessageDefinition) (node : option NodeNG)
    (st : State) (m : Entry) :
  last (messages_of st (current_file st)) = Some m →
  msg_id m ≠ msgid mdef →
  messages (handle_node render_message add_line mdef node st) =
  (dd_get (current_file st) (messages st)).2.
Proof.
  unfold handle_node, messages_of. rewrite <- dd_get_list.
  destruct (dd_get _ _) as [l d]. cbn. intros -> Hne.
  by rewrite bool_decide_eq_false_2.
Qed.

Lemma handle_node_matches (mdef : MessageDefinition) (node : option NodeNG)
    (st : State) (l0 : list Entry) (m : Entry) :
  messages_of st (current_file st) = l0 ++ [m] →
  msg_id m = msgid mdef →
  messages_of (handle_node render_message add_line mdef node st) (current_file st) =
  l0 ++ [NewMessage m node
           (Some (if (str_in (symbol m) NO_SNIPPET
                      || PyStr.startswith (msg m) "Invalid module")%bool
                  then ""
                  else _build_snippet render_message add_line st m node))].
Proof.
  unfold handle_node, messages_of. rewrite <- dd_get_list.
  destruct (dd_get _ _) as [l d]. cbn [fst]. intros -> Hid.
  rewrite last_snoc, bool_decide_eq_true_2 by done. cbn.
  by rewrite lookup_insert_eq, insert_last.
Qed.
End WithPrinter.
End AggregatorFacts.

(** C8. With nothing to augment, [handle_node] is a no-op. When the list
    of the current file is empty, or its last message has another rule
    identifier than the one supplied, the call leaves the list of every file
    as it was, in length and contents: every list read from [messages] is
    unchanged, every entry of the mapping is kept, the only entry that can
    appear is the empty list the [defaultdict] creates for the current file
    on its first read (no new entry when the file already has one, and then
    the whole state is unchanged), and [has_messages] and the other fields
    are unchanged. *)
Theorem handle_node_nothing_to_augment
    (render_message : Entry → option NodeNG → list string → list SnippetLine)
    (add_line : option Z → LineType → Slice → string → string)
    (mdef : PythonTaReporter.MessageDefinition) (node : option NodeNG)
    (st : PythonTaReporter.State) :
  PythonTaReporter.messages_of st (PythonTaReporter.current_file st) = []
  ∨ (∃ m, last (PythonTaReporter.messages_of st (PythonTaReporter.current_file st))
            = Some m
          ∧ msg_id m ≠ PythonTaReporter.msgid mdef) →
  let st' := PythonTaReporter.handle_node render_message add_line mdef node st in
  (∀ f, PythonTaReporter.messages_of st' f = PythonTaReporter.messages_of st f)
  ∧ (∀ f l, PythonTaReporter.messages st !! f = Some l →
            PythonTaReporter.messages st' !! f = Some l)
  ∧ (∀ f l, PythonTaReporter.messages st' !! f = Some l →
            PythonTaReporter.messages st !! f = Some l
            ∨ (f = PythonTaReporter.current_file st ∧ l = []))
  ∧ (is_Some (PythonTaReporter.messages st !! PythonTaReporter.current_file st) →
     st' = st)
  ∧ PythonTaReporter.has_messages st' = PythonTaReporter.has_messages st
  ∧ PythonTaReporter.current_file st' = PythonTaReporter.current_file st
  ∧ PythonTaReporter.source_lines st' = PythonTaReporter.source_lines st
  ∧ PythonTaReporter.module_name st' = PythonTaReporter.module_name st
  ∧ PythonTaReporter.out st' = PythonTaReporter.out st.
Proof.
  intros Hnothing st'.
  assert (PythonTaReporter.messages st' =
          (PythonTaReporter.dd_get (PythonTaReporter.current_file st)
             (PythonTaReporter.messages st)).2) as Hd.
  { destruct Hnothing as [Hnil|(m & Hlast & Hne)].
    - by apply handle_node_on_empty.
    - by eapply handle_node_other_rule. }
  assert (∀ f, PythonTaReporter.messages_of st' f = PythonTaReporter.messages_of st f)
    as Hview.
  { intros f. unfold PythonTaReporter.messages_of. rewrite Hd. apply dd_get_view. }
  destruct (handle_node_fields render_message add_line mdef node st)
    as (Hcur & Hsrc & Hmod & Hout).
  split_and!; try done.
  - intros f l Hf. rewrite Hd. by apply dd_get_keeps.
  - intros f l. rewrite Hd. apply dd_get_adds_empty.
  - intros Hsome. apply dd_get_present in Hsome. rewrite Hsome in Hd.
    fold st' in Hcur, Hsrc, Hmod, Hout.
    destruct st' as [d' s' n' c' o'], st as [d s n c o]. cbn in *. congruence.
  - by apply has_messages_ext.
Qed.

(** C8 at work: after a style message, the [handle_node] of another rule
    returns the state it was given. *)
Lemma handle_node_nothing_to_augment_witness :
  let st := PythonTaReporter.handle_message Sample.trailing_whitespace Sample.tracking in
  let mdef := PythonTaReporter.mkMessageDefinition "E0602" in
  (∃ m, last (PythonTaReporter.messages_of st (PythonTaReporter.current_file st))
          = Some m
        ∧ msg_id m ≠ PythonTaReporter.msgid mdef)
  ∧ PythonTaReporter.handle_node Sample.render_message Sample.add_line mdef (Some 1%N) st
    = st.
Proof.
  intros st mdef.
  assert (∃ m, last (PythonTaReporter.messages_of st (PythonTaReporter.current_file st))
                 = Some m
               ∧ msg_id m ≠ PythonTaReporter.msgid mdef) as Hlast.
  { exists Sample.trailing_whitespace. split; [reflexivity | discriminate]. }
  split; [exact Hlast|].
  apply (handle_node_nothing_to_augment Sample.render_message Sample.add_line
           mdef (Some 1%N) st (or_intror Hlast)).
  eexists. reflexivity.
Defined.

(** C5. For a diagnostic whose rule is in [NO_SNIPPET], and for a
    diagnostic whose text begins with [Invalid module], the snippet that
    [handle_node] attaches is the empty string, whatever [render_message]
    would yield for it. *)
Theorem handle_node_forces_empty_snippet
    (render_message : Entry → option NodeNG → list string → list SnippetLine)
    (add_line : option Z → LineType → Slice → string → string)
    (mdef : PythonTaReporter.MessageDefinition) (node : option NodeNG)
    (st : PythonTaReporter.State) (l0 : list Entry) (m : Entry) :
  PythonTaReporter.messages_of st (PythonTaReporter.current_file st) = l0 ++ [m] →
  msg_id m = PythonTaReporter.msgid mdef →
  symbol m ∈ NO_SNIPPET ∨ PyStr.startswith (msg m) "Invalid module" = true →
  let st' := PythonTaReporter.handle_node render_message add_line mdef node st in
  PythonTaReporter.messages_of st' (PythonTaReporter.current_file st) =
    l0 ++ [NewMessage m node (Some "")]
  ∧ (last (PythonTaReporter.messages_of st' (PythonTaReporter.current_file st))
       ≫= snippet_attr) = Some (Some "").
Proof.
  intros Hl Hid Hforce st'.
  assert (PythonTaReporter.messages_of st' (PythonTaReporter.current_file st) =
          l0 ++ [NewMessage m node (Some "")]) as Hst'.
  { unfold st'. rewrite (handle_node_matches _ _ _ _ _ l0 m Hl Hid).
    assert ((str_in (symbol m) NO_SNIPPET
             || PyStr.startswith (msg m) "Invalid module")%bool = true) as ->; [|done].
    apply orb_true_iff. destruct Hforce as [Hin|Hstart]; [left | by right].
    by apply bool_decide_eq_true. }
  split; [done|]. by rewrite Hst', last_snoc.
Qed.

(** C5 at work: for an [invalid-name] message the snippet is empty, though
    rendering its line would give text. *)
Lemma handle_node_forces_empty_snippet_witness :
  let st := PythonTaReporter.handle_message Sample.invalid_name Sample.tracking in
  let mdef := PythonTaReporter.mkMessageDefinition "C0103" in
  PythonTaReporter._build_snippet Sample.render_message Sample.add_line st
    Sample.invalid_name (Some 1%N) ≠ ""
  ∧ PythonTaReporter.messages_of
      (PythonTaReporter.handle_node Sample.render_message Sample.add_line mdef
         (Some 1%N) st) "a.py" =
    [NewMessage Sample.invalid_name (Some 1%N) (Some "")].
Proof.
  intros st mdef. split; [by vm_compute|].
  apply (handle_node_forces_empty_snippet Sample.render_message Sample.add_line
           mdef (Some 1%N) st [] Sample.invalid_name).
  - reflexivity.
  - reflexivity.
  - left. unfold NO_SNIPPET. cbn. by left.
Defined.

(** C1, as the code has it. [handle_node] changes at most the last entry
    of the list of the current file, and only when the rule identifier of
    that entry is the one supplied: the lists of the other files, the length
    of the list and every entry before the last are unchanged, and on an
    empty list nothing is attached. A last entry that matches is replaced by
    a [NewMessage] around it, augmented already or not: a second call for
    the same rule wraps the augmented entry once more, with the node of the
    second call and a snippet computed anew; the list keeps its length and
    the original message inside is the same. *)
Theorem handle_node_augments_last
    (render_message : Entry → option NodeNG → list string → list SnippetLine)
    (add_line : option Z → LineType → Slice → string → string)
    (mdef : PythonTaReporter.MessageDefinition) (st : PythonTaReporter.State)
    (node : option NodeNG) :
  let cur := PythonTaReporter.current_file st in
  let st' := PythonTaReporter.handle_node render_message add_line mdef node st in
  (∀ f, f ≠ cur →
     PythonTaReporter.messages_of st' f = PythonTaReporter.messages_of st f)
  ∧ length (PythonTaReporter.messages_of st' cur) =
    length (PythonTaReporter.messages_of st cur)
  ∧ (PythonTaReporter.messages_of st cur = [] →
     PythonTaReporter.messages_of st' cur = [])
  ∧ (∀ l0 m, PythonTaReporter.messages_of st cur = l0 ++ [m] →
       if decide (msg_id m = PythonTaReporter.msgid mdef)
       then ∃ s, PythonTaReporter.messages_of st' cur =
                 l0 ++ [NewMessage m node (Some s)]
       else PythonTaReporter.messages_of st' cur = l0 ++ [m])
  ∧ (∀ l0 m node2,
       PythonTaReporter.messages_of st cur = l0 ++ [m] →
       msg_id m = PythonTaReporter.msgid mdef →
       ∃ s1 s2,
         PythonTaReporter.messages_of
           (PythonTaReporter.handle_node render_message add_line mdef node2 st') cur =
         l0 ++ [NewMessage (NewMessage m node (Some s1)) node2 (Some s2)]
         ∧ original (NewMessage (NewMessage m node (Some s1)) node2 (Some s2))
           = original m).
Proof.
  intros cur st'.
  destruct (handle_node_fields render_message add_line mdef node st)
    as (Hcur & _). fold st' cur in Hcur.
  assert (∀ l0 m, PythonTaReporter.messages_of st cur = l0 ++ [m] →
            if decide (msg_id m = PythonTaReporter.msgid mdef)
            then ∃ s, PythonTaReporter.messages_of st' cur =
                      l0 ++ [NewMessage m node (Some s)]
            else PythonTaReporter.messages_of st' cur = l0 ++ [m]) as Hlast.
  { intros l0 m Hl. case_decide as Hid.
    - eexists. by apply handle_node_matches.
    - unfold PythonTaReporter.messages_of, st'.
      rewrite (handle_node_other_rule _ _ _ _ _ m); [|by fold cur; rewrite Hl, last_snoc|done].
      by rewrite dd_get_view. }
  assert (PythonTaReporter.messages_of st cur = [] →
          PythonTaReporter.messages_of st' cur = []) as Hnil.
  { intros Hl. unfold PythonTaReporter.messages_of, st'.
    rewrite handle_node_on_empty by done. by rewrite dd_get_view. }
  split_and!; try done.
  - intros f Hf. by apply handle_node_other_file.
  - destruct (PythonTaReporter.messages_of st cur) as [|x l] eqn:Hl using rev_ind.
    + by rewrite Hnil.
    + specialize (Hlast l x eq_refl). case_decide.
      * destruct Hlast as [s ->]. by rewrite !length_app.
      * by rewrite Hlast.
  - intros l0 m node2 Hl Hid.
    specialize (Hlast l0 m Hl). rewrite decide_True in Hlast by done.
    destruct Hlast as [s1 Hs1]. exists s1. eexists. split; [|done].
    rewrite <- Hcur. apply handle_node_matches; [by rewrite Hcur | done].
Qed.

(** C1, refuted as the specification states it. After one diagnostic and
    two calls of [handle_node] for its rule the list still has one entry,
    but the second call is not a no-op: the entry augmented by the first
    call is wrapped again and carries the node of the second call, and
    [to_dict] of the new entry has lost the rule identifier of the
    diagnostic. *)
Lemma handle_node_twice_wraps_again :
  let mdef := PythonTaReporter.mkMessageDefinition "E0602" in
  let st0 := PythonTaReporter.handle_message Sample.undefined_variable Sample.tracking in
  let st1 := PythonTaReporter.handle_node Sample.render_message Sample.add_line
               mdef (Some 1%N) st0 in
  let st2 := PythonTaReporter.handle_node Sample.render_message Sample.add_line
               mdef (Some 2%N) st1 in
  let once := NewMessage Sample.undefined_variable (Some 1%N)
                (Some Sample.snippet_line_3) in
  PythonTaReporter.messages_of st1 "a.py" = [once]
  ∧ PythonTaReporter.messages_of st2 "a.py" =
      [NewMessage once (Some 2%N)
         (Some Sample.snippet_line_3)]
  ∧ PythonTaReporter.messages_of st2 "a.py" ≠ PythonTaReporter.messages_of st1 "a.py"
  ∧ (to_dict once ≫= (.!! "msg_id")) = Some (VStr "E0602")
  ∧ (to_dict (NewMessage once (Some 2%N)
        (Some Sample.snippet_line_3))
       ≫= (.!! "msg_id")) = None.
Proof.
  intros mdef st0 st1 st2 once.
  assert (PythonTaReporter.messages_of st1 "a.py" = [once]) as H1 by by vm_compute.
  assert (PythonTaReporter.messages_of st2 "a.py" =
          [NewMessage once (Some 2%N)
             (Some Sample.snippet_line_3)]) as H2
    by by vm_compute.
  split_and!; done.
Qed.

(** ** File switch *)

(** The map of messages once a file has its list. *)
Lemma touch_view (d : gmap string (list Entry)) (fp f : string) :
  default [] (match d !! fp with
              | Some _ => d
              | None => <[fp := []]> d
              end !! f) = default [] (d !! f).
Proof.
  pose proof (dd_get_view fp f d) as H. unfold PythonTaReporter.dd_get in H.
  by destruct (d !! fp).
Qed.

Lemma touch_keeps (d : gmap string (list Entry)) (fp f : string) (l : list Entry) :
  d !! f = Some l →
  match d !! fp with
  | Some _ => d
  | None => <[fp := []]> d
  end !! f = Some l.
Proof.
  pose proof (dd_get_keeps fp f l d) as H. unfold PythonTaReporter.dd_get in H.
  by destruct (d !! fp).
Qed.

Lemma touch_is_Some (d : gmap string (list Entry)) (fp : string) :
  is_Some (match d !! fp with
           | Some _ => d
           | None => <[fp := []]> d
           end !! fp).
Proof.
  pose proof (dd_get_lookup fp d) as H. unfold PythonTaReporter.dd_get in H.
  destruct (d !! fp) eqn:Hfp; cbn in H; by eexists.
Qed.

(** C4, as the code has it. The module name is expanded and tested for
    existence first: when either step raises, the call raises with nothing
    switched. When no path can be resolved (no file path is given and the
    expanded module name does not exist) the switch is a no-op. Otherwise
    the module name and the tracked file are switched and a new file gets
    an empty list, and then the file is read: when it cannot be opened or
    decoded the call raises, with the source buffer of the previous file
    still in place; when it can, the buffer is replaced by its lines
    without their line ends. In every case no recorded diagnostic is lost:
    the list of every file and the output are unchanged. *)
Theorem on_set_current_module_cases
    (fs : PythonTaReporter.FileSystem) (module : string)
    (filepath : option string) (st : PythonTaReporter.State) :
  let r := PythonTaReporter.on_set_current_module fs module filepath st in
  (∀ f, PythonTaReporter.messages_of r.1 f = PythonTaReporter.messages_of st f)
  ∧ (∀ f l, PythonTaReporter.messages st !! f = Some l →
            PythonTaReporter.messages r.1 !! f = Some l)
  ∧ PythonTaReporter.out r.1 = PythonTaReporter.out st
  ∧ match PythonTaReporter.fs_expand fs module with
    | None => r = (st, PythonTaReporter.Raised)
    | Some possible_config_path =>
        match PythonTaReporter.fs_exists fs possible_config_path with
        | None => r = (st, PythonTaReporter.Raised)
        | Some path_exists =>
            let target :=
              match filepath with
              | Some fp => Some fp
              | None => if path_exists then Some possible_config_path else None
              end in
            match target with
            | None => r = (st, PythonTaReporter.Returned)
            | Some fp =>
                PythonTaReporter.current_file r.1 = fp
                ∧ PythonTaReporter.module_name r.1 = module
                ∧ is_Some (PythonTaReporter.messages r.1 !! fp)
                ∧ match PythonTaReporter.fs_readlines fs fp with
                  | None =>
                      r.2 = PythonTaReporter.Raised
                      ∧ PythonTaReporter.source_lines r.1 =
                        PythonTaReporter.source_lines st
                  | Some lines =>
                      r.2 = PythonTaReporter.Returned
                      ∧ PythonTaReporter.source_lines r.1 =
                        map PyStr.rstrip_eol lines
                  end
            end
        end
    end.
Proof.
  intros r. subst r. unfold PythonTaReporter.on_set_current_module.
  destruct (PythonTaReporter.fs_expand fs module) as [p|]; [|done].
  destruct (PythonTaReporter.fs_exists fs p) as [path_exists|]; [|done].
  destruct filepath as [fp|]; cbn [bool_decide andb].
  - rewrite bool_decide_eq_false_2, andb_false_r by done.
    destruct (PythonTaReporter.fs_readlines fs fp); cbn;
      unfold PythonTaReporter.messages_of; cbn; split_and!;
      auto using touch_view, touch_keeps, touch_is_Some.
  - rewrite bool_decide_eq_true_2, andb_true_r by done.
    destruct path_exists; [|done].
    destruct (PythonTaReporter.fs_readlines fs p); cbn;
      unfold PythonTaReporter.messages_of; cbn; split_and!;
      auto using touch_view, touch_keeps, touch_is_Some.
Qed.

(** C4, refuted as the specification states it. Switching to a file that
    cannot be read is not skipped in silence: the call raises, after the
    tracked file and the module name were switched and a list was created
    for the new file. The diagnostic recorded before is still there. *)
Lemma on_set_current_module_unreadable_raises :
  let st := PythonTaReporter.handle_message Sample.undefined_variable Sample.tracking in
  let r := PythonTaReporter.on_set_current_module Sample.empty_fs "gone"
             (Some "gone.py") st in
  r.2 = PythonTaReporter.Raised
  ∧ PythonTaReporter.current_file r.1 = "gone.py"
  ∧ PythonTaReporter.module_name r.1 = "gone"
  ∧ PythonTaReporter.messages r.1 !! "gone.py" = Some []
  ∧ PythonTaReporter.messages st !! "gone.py" = None
  ∧ PythonTaReporter.source_lines r.1 = Sample.source
  ∧ PythonTaReporter.messages_of r.1 "a.py" = [Sample.undefined_variable].
Proof. intros st r. split_and!; by vm_compute. Qed.

(** A switch to a readable file returns, and loads the lines of the file
    without their line ends. *)
Example on_set_current_module_loads :
  PythonTaReporter.on_set_current_module Sample.one_file_fs "a" (Some "a.py")
    PythonTaReporter.init =
  (Sample.tracking, PythonTaReporter.Returned).
Proof. reflexivity. Qed.

(** A module name that names an existing path stands for the missing file
    path; one that names nothing leaves the reporter as it is. *)
Example on_set_current_module_config_path :
  PythonTaReporter.on_set_current_module Sample.one_file_fs "a.py" None
    PythonTaReporter.init =
  ({| PythonTaReporter.messages := {["a.py" := []]};
      PythonTaReporter.source_lines := Sample.source;
      PythonTaReporter.module_name := "a.py";
      PythonTaReporter.current_file := "a.py";
      PythonTaReporter.out := "" |}, PythonTaReporter.Returned)
  ∧ PythonTaReporter.on_set_current_module Sample.one_file_fs "a" None
      Sample.tracking =
    (Sample.tracking, PythonTaReporter.Returned).
Proof. split; reflexivity. Qed.

(** When the module name cannot be expanded the call raises before
    anything is switched, file path or not. *)
Example on_set_current_module_expansion_raises :
  PythonTaReporter.on_set_current_module Sample.no_home_fs "~nobody/a.py"
    (Some "a.py") Sample.tracking =
  (Sample.tracking, PythonTaReporter.Raised)
  ∧ PythonTaReporter.on_set_current_module Sample.no_home_fs "a" (Some "a.py")
      PythonTaReporter.init =
    (Sample.tracking, PythonTaReporter.Returned).
Proof. split; reflexivity. Qed.

(** ** Plain rendering *)

Section PlainFacts.
Import PythonTaReporter PlainReporter.
Variable colourify : string → string → string.

Lemma join_app (l1 l2 : list string) : join (l1 ++ l2) = join l1 +:+ join l2.
Proof.
  unfold join. induction l1 as [|s l1 IH]; cbn; [done|].
  by rewrite IH, str_app_assoc.
Qed.

Lemma occurrence_Some (result : string) (m : Entry) :
  has_snippet m = true →
  occurrence colourify result m = Some (result +:+ occurrence_text colourify m).
Proof.
  unfold has_snippet, occurrence, occurrence_text.
  destruct (snippet_attr m) as [[s|]|]; [intros _ | done | done]. cbn.
  f_equal. rewrite !str_app_assoc. f_equal.
Qed.

(** A positive finite maximum: the loop started at index [i] renders the
    occurrences up to index [M]. *)
Lemma occurrences_finite (M : Z) (msgs : list Entry) (i : Z) (result : string) :
  0 < M → 0 ≤ i ≤ M →
  forallb has_snippet msgs = true →
  occurrences colourify (Finite M) i msgs result =
  Some (result +:+ join (occurrence_text colourify <$> take (Z.to_nat (M - i)) msgs)).
Proof.
  intros HM. revert i result.
  induction msgs as [|m msgs IH]; intros i result Hi Hs.
  - cbn. by rewrite take_nil, str_app_nil_r.
  - cbn [forallb] in Hs. apply andb_true_iff in Hs as [Hm Hs].
    cbn [occurrences max_nonzero max_eq].
    destruct (Z.eqb_spec M 0) as [?|_]; [lia|]. cbn [negb andb].
    destruct (Z.eqb_spec i M) as [->|Hne].
    + rewrite Z.sub_diag. cbn. by rewrite str_app_nil_r.
    + rewrite occurrence_Some by done. cbn.
      rewrite IH by (done || lia).
      replace (Z.to_nat (M - i)) with (S (Z.to_nat (M - (i + 1)))) by lia.
      cbn. by rewrite str_app_assoc.
Qed.

(** A maximum of [0] or infinity: the loop never breaks. *)
Lemma occurrences_unlimited (mx : MaxMessages) (msgs : list Entry) (i : Z)
    (result : string) :
  mx = Finite 0 ∨ mx = Infinity →
  forallb has_snippet msgs = true →
  occurrences colourify mx i msgs result =
  Some (result +:+ join (occurrence_text colourify <$> msgs)).
Proof.
  intros Hmx. revert i result.
  induction msgs as [|m msgs IH]; intros i result Hs.
  - cbn. by rewrite str_app_nil_r.
  - cbn [forallb] in Hs. apply andb_true_iff in Hs as [Hm Hs].
    cbn [occurrences].
    assert ((max_nonzero mx && max_eq i mx)%bool = false) as ->.
    { by destruct Hmx as [-> | ->]. }
    rewrite occurrence_Some by done. cbn.
    rewrite IH by done. cbn. by rewrite str_app_assoc.
Qed.

(** Whatever the maximum, the loop over augmented entries returns, and
    what it returns extends the text it was given. *)
Lemma occurrences_Some (mx : MaxMessages) (msgs : list Entry) (i : Z)
    (result : string) :
  forallb has_snippet msgs = true →
  ∃ t, occurrences colourify mx i msgs result = Some (result +:+ t).
Proof.
  revert i result. induction msgs as [|m msgs IH]; intros i result Hs.
  - exists "". cbn. by rewrite str_app_nil_r.
  - cbn [forallb] in Hs. apply andb_true_iff in Hs as [Hm Hs].
    cbn [occurrences]. destruct (max_nonzero mx && max_eq i mx)%bool.
    + exists "". by rewrite str_app_nil_r.
    + rewrite occurrence_Some by done. cbn.
      destruct (IH (i + 1) (result +:+ occurrence_text colourify m) Hs) as [t ->].
      eexists. by rewrite str_app_assoc.
Qed.

(** The text a group has accumulated when its loop over the occurrences
    starts: the header, the note when there is one, and a line break. *)
Lemma group_unfold (mx : MaxMessages) (result k : string) (msgs : list Entry) :
  msgs ≠ [] →
  group colourify mx result k msgs =
  occurrences colourify mx 0 msgs
    (result +:+ group_header colourify k msgs
     +:+ (if (max_nonzero mx && max_not_inf mx
              && max_lt mx (Z.of_nat (length msgs)))%bool
          then " (First " +:+ max_format mx +:+ " shown)."
          else "")
     +:+ _BREAK).
Proof.
  destruct msgs as [|first rest]; [done|]. intros _.
  unfold group, group_header. cbn [head mbind option_bind fmap option_fmap option_map default].
  cbv zeta. f_equal.
  destruct (max_nonzero mx && max_not_inf mx && max_lt mx _)%bool;
    rewrite ?str_app_assoc; repeat f_equal.
Qed.
End PlainFacts.

(** C3. Truncation law. For a rule group of [N] augmented occurrences and
    the configured maximum [M]: when [0 < M < N] the group renders its
    header with the note naming [M] and then exactly the first [M]
    occurrences; when the maximum is [0], or infinity, or [M ≥ N] (so also
    when [N] equals [M]), it renders the header without a note and then all
    [N] occurrences. *)
Theorem truncation_law
    (colourify : string → string → string) (result k : string)
    (msgs : list Entry) :
  msgs ≠ [] →
  forallb has_snippet msgs = true →
  let N := Z.of_nat (length msgs) in
  (∀ mx, PlainReporter._colour_messages_by_type colourify mx [(k, msgs)] =
         PlainReporter.group colourify mx "" k msgs)
  ∧ (∀ M, 0 < M < N →
       PlainReporter.group colourify (PlainReporter.Finite M) result k msgs =
       Some (result +:+ group_header colourify k msgs
             +:+ (" (First " +:+ PyStr.of_int M +:+ " shown).")
             +:+ PythonTaReporter._BREAK
             +:+ join (occurrence_text colourify <$> take (Z.to_nat M) msgs))
       ∧ length (take (Z.to_nat M) msgs) = Z.to_nat M)
  ∧ (∀ mx,
       mx = PlainReporter.Infinity ∨ mx = PlainReporter.Finite 0
       ∨ (∃ M, mx = PlainReporter.Finite M ∧ N ≤ M) →
       PlainReporter.group colourify mx result k msgs =
       Some (result +:+ group_header colourify k msgs
             +:+ PythonTaReporter._BREAK
             +:+ join (occurrence_text colourify <$> msgs))).
Proof.
  intros Hne Hs N. split_and!.
  - intros mx. unfold PlainReporter._colour_messages_by_type. cbn.
    by destruct (PlainReporter.group colourify mx "" k msgs).
  - intros M HM. split; [|rewrite length_take; lia].
    rewrite group_unfold by done. cbn [PlainReporter.max_nonzero
      PlainReporter.max_not_inf PlainReporter.max_lt PlainReporter.max_format].
    destruct (Z.eqb_spec M 0) as [?|_]; [lia|].
    destruct (Z.ltb_spec M (Z.of_nat (length msgs))) as [_|?]; [|lia].
    cbn [negb andb]. rewrite occurrences_finite by (done || lia).
    rewrite Z.sub_0_r, !str_app_assoc. done.
  - intros mx Hmx. rewrite group_unfold by done.
    destruct Hmx as [->|[->|(M & -> & HM)]].
    + cbn [PlainReporter.max_not_inf andb]. rewrite andb_false_r.
      rewrite occurrences_unlimited by auto. by rewrite !str_app_assoc.
    + cbn [PlainReporter.max_nonzero Z.eqb negb andb].
      rewrite occurrences_unlimited by auto. by rewrite !str_app_assoc.
    + assert (0 < M) by (destruct msgs; [done | cbn in *; lia]).
      cbn [PlainReporter.max_lt].
      destruct (Z.ltb_spec M (Z.of_nat (length msgs))) as [?|_]; [lia|].
      rewrite andb_false_r. rewrite occurrences_finite by (done || lia).
      rewrite Z.sub_0_r, take_ge by lia. by rewrite !str_app_assoc.
Qed.

(** C3 at work: three occurrences under the maxima 2 and 3. *)
Lemma truncation_law_witness :
  let k := "C0303" in
  let shown (n : Z) :=
    "  [Line " +:+ PyStr.of_int n +:+ "] Trailing whitespace"
    +:+ PythonTaReporter._BREAK +:+ PythonTaReporter._BREAK in
  PlainReporter._colour_messages_by_type PythonTaReporter._colourify
    (PlainReporter.Finite 2) [(k, Sample.three_occurrences)] =
  Some ("C0303 (trailing-whitespace)  Number of occurrences: 3. (First 2 shown)."
        +:+ PythonTaReporter._BREAK +:+ shown 1 +:+ shown 2)
  ∧ PlainReporter._colour_messages_by_type PythonTaReporter._colourify
      (PlainReporter.Finite 3) [(k, Sample.three_occurrences)] =
    Some ("C0303 (trailing-whitespace)  Number of occurrences: 3."
          +:+ PythonTaReporter._BREAK +:+ shown 1 +:+ shown 2 +:+ shown 3).
Proof.
  intros k shown.
  destruct (truncation_law PythonTaReporter._colourify "" k Sample.three_occurrences)
    as (Hall & Hcut & Hfull); [discriminate | reflexivity |].
  rewrite !Hall. split.
  - rewrite (proj1 (Hcut 2 ltac:(cbn; lia))). reflexivity.
  - rewrite (Hfull (PlainReporter.Finite 3)); [reflexivity|].
    right. right. exists 3. split; [reflexivity | cbn; lia].
Defined.

Section Sections.
Import PythonTaReporter PlainReporter.
Variable colourify : string → string → string.
Variable mx : MaxMessages.

Lemma truthy_false (s : string) : PyStr.truthy s = false ↔ s = "".
Proof. by destruct s. Qed.

(** A non-empty group of augmented entries renders, and adds text. *)
Lemma group_Some (result k : string) (msgs : list Entry) :
  msgs ≠ [] → forallb has_snippet msgs = true →
  ∃ t, group colourify mx result k msgs = Some (result +:+ t)
       ∧ PyStr.truthy t = true.
Proof.
  intros Hne Hs. rewrite group_unfold by done.
  edestruct (occurrences_Some colourify mx msgs 0) as [t ->]; [done|].
  eexists. split.
  - by rewrite !str_app_assoc.
  - do 2 apply truthy_app_r. by apply truthy_app_l.
Qed.

Lemma groups_Some (g : Groups) (result : string) :
  Forall (λ p, p.2 ≠ [] ∧ forallb has_snippet p.2 = true) g →
  ∃ t, groups colourify mx g result = Some (result +:+ t)
       ∧ (t = "" ↔ g = []).
Proof.
  intros Hg. revert result.
  induction Hg as [|[k msgs] g [Hne Hs] Hg IH]; intros result.
  - exists "". by rewrite str_app_nil_r.
  - cbn [groups]. cbn [snd] in Hne, Hs.
    destruct (group_Some result k msgs Hne Hs) as (t1 & -> & Ht1). cbn.
    destruct (IH (result +:+ t1)) as (t2 & -> & _).
    exists (t1 +:+ t2). split; [by rewrite str_app_assoc|].
    split; [|done]. intros Hnil.
    apply (truthy_app_l t1 t2) in Ht1. by rewrite Hnil in Ht1.
Qed.

Lemma filter_has_snippet (b : bool) (k : string) (msgs : list Entry) :
  forallb has_snippet msgs = true →
  forallb has_snippet (of_bucket_and_rule b k msgs) = true.
Proof.
  rewrite !forallb_forall. intros Hall m Hm. apply Hall.
  apply list_elem_of_In in Hm. apply list_elem_of_filter in Hm as [_ Hm].
  by apply list_elem_of_In.
Qed.

(** Both buckets of a list of augmented entries render. *)
Lemma buckets_render (msgs : list Entry) :
  forallb has_snippet msgs = true →
  ∃ errors styles,
    _colour_messages_by_type colourify mx (group_messages msgs).1 = Some errors
    ∧ _colour_messages_by_type colourify mx (group_messages msgs).2 = Some styles
    ∧ (errors = "" ↔ (group_messages msgs).1 = [])
    ∧ (styles = "" ↔ (group_messages msgs).2 = []).
Proof.
  intros Hs. unfold _colour_messages_by_type.
  destruct (groups_Some (group_messages msgs).1 "") as (errors & He & Hnil).
  { apply Forall_forall. intros [k l] Hin.
    destruct (error_group_list msgs k l Hin) as [Hne ->].
    split; [done | by apply filter_has_snippet]. }
  destruct (groups_Some (group_messages msgs).2 "") as (styles & Hst & Hnil').
  { apply Forall_forall. intros [k l] Hin.
    destruct (style_group_list msgs k l Hin) as [Hne ->].
    split; [done | by apply filter_has_snippet]. }
  exists errors, styles. by rewrite He, Hst.
Qed.

Lemma section_text_Some (g : Groups) (text : string) :
  _colour_messages_by_type colourify mx g = Some text →
  section_text colourify mx g =
  Some (if decide (text = "") then no_err_message else text).
Proof.
  intros Hg. unfold section_text. rewrite Hg. cbn. f_equal.
  destruct text; by cbn.
Qed.
End Sections.

(** C7. The sections of a report. For the augmented diagnostics of the
    current file and every level, [print_messages] writes the head of the
    report, then the section of the blocking errors under its title, and
    the style section under its title exactly when the level is [all]; a
    section whose bucket is empty holds the no-problems message in place of
    rule groups, and a section whose bucket is not empty holds its rule
    groups. With no diagnostic at all, the report holds only the titles and
    the no-problems message of each rendered section. *)
Theorem print_messages_sections
    (colourify : string → string → string) (mx : PlainReporter.MaxMessages)
    (level now : string) (st : PythonTaReporter.State) :
  let cur := PythonTaReporter.current_file st in
  let msgs := PythonTaReporter.messages_of st cur in
  let section (text : string) :=
    if decide (text = "") then PlainReporter.no_err_message else text in
  forallb has_snippet msgs = true →
  ∃ (errors styles : string) (st' : PythonTaReporter.State),
    PlainReporter._colour_messages_by_type colourify mx
      (PythonTaReporter.group_messages msgs).1 = Some errors
    ∧ PlainReporter._colour_messages_by_type colourify mx
        (PythonTaReporter.group_messages msgs).2 = Some styles
    ∧ (errors = "" ↔ Forall (λ m, PythonTaReporter.is_error m = false) msgs)
    ∧ (styles = "" ↔ Forall (λ m, PythonTaReporter.is_error m = true) msgs)
    ∧ PlainReporter.print_messages colourify mx level now st = Some st'
    ∧ PythonTaReporter.out st' =
        PythonTaReporter.out st
        +:+ (report_header colourify now cur
             +:+ colourify "code-heading"
                   (PlainReporter.code_err_title +:+ PythonTaReporter._BREAK)
             +:+ section errors
             +:+ (if decide (level = "all")
                  then colourify "style-heading"
                         (PlainReporter.style_err_title +:+ PythonTaReporter._BREAK)
                       +:+ section styles
                  else ""))
        +:+ PythonTaReporter._BREAK
    ∧ (msgs = [] → errors = "" ∧ styles = "")
    ∧ (∀ f, PythonTaReporter.messages_of st' f = PythonTaReporter.messages_of st f).
Proof.
  intros cur msgs section Hs.
  destruct (buckets_render colourify mx msgs Hs)
    as (errors & styles & He & Hst & Henil & Hsnil).
  rewrite error_bucket_empty in Henil. rewrite style_bucket_empty in Hsnil.
  assert (PlainReporter.report colourify mx level now cur msgs =
          Some (report_header colourify now cur
                +:+ colourify "code-heading"
                      (PlainReporter.code_err_title +:+ PythonTaReporter._BREAK)
                +:+ section errors
                +:+ (if decide (level = "all")
                     then colourify "style-heading"
                            (PlainReporter.style_err_title +:+ PythonTaReporter._BREAK)
                          +:+ section styles
                     else ""))) as Hreport.
  { unfold PlainReporter.report.
    destruct (PythonTaReporter.group_messages msgs) as [eg sg]. cbn [fst snd] in *.
    rewrite (section_text_Some _ _ _ _ He). cbn.
    unfold report_header. fold (section errors).
    destruct (decide (level = "all")) as [->|Hlevel].
    - rewrite bool_decide_eq_true_2 by done.
      rewrite (section_text_Some _ _ _ _ Hst). cbn. fold (section styles).
      by rewrite !str_app_assoc.
    - rewrite bool_decide_eq_false_2 by done.
      by rewrite !str_app_assoc, str_app_nil_r. }
  unfold PlainReporter.print_messages.
  pose proof (dd_get_list cur (PythonTaReporter.messages st)) as Hl.
  pose proof (dd_get_view cur) as Hv. specialize (Hv) with (d := PythonTaReporter.messages st).
  fold cur.
  destruct (PythonTaReporter.dd_get cur (PythonTaReporter.messages st)) as [l d].
  cbn [fst snd] in Hl, Hv. fold (PythonTaReporter.messages_of st cur) in Hl.
  fold msgs in Hl. subst l. rewrite Hreport. cbn.
  eexists errors, styles, _. split_and!; try done.
  intros ->. split; [apply Henil | apply Hsnil]; constructor.
Qed.

(** C7 at work: the report of one error and one style issue, at the level
    of the errors only and at the level [all]. *)
Lemma print_messages_sections_witness :
  let report (level : string) :=
    PythonTaReporter.out <$>
      PlainReporter.print_messages PythonTaReporter._colourify
        (PlainReporter.Finite 0) level "Tue. Nov. 03 2026, 10:00:00 AM"
        Sample.two_findings in
  let head :=
    "PyTA Report for: a.py" +:+ PythonTaReporter._BREAK
    +:+ "Tue. Nov. 03 2026, 10:00:00 AM" +:+ PythonTaReporter._BREAK
    +:+ PlainReporter.code_err_title +:+ PythonTaReporter._BREAK
    +:+ "E0602 (undefined-variable)  Number of occurrences: 1."
    +:+ PythonTaReporter._BREAK
    +:+ "  [Line 3] Undefined variable 'x'" +:+ PythonTaReporter._BREAK
    +:+ Sample.snippet_line_3
    +:+ PythonTaReporter._BREAK in
  report "errors" = Some (head +:+ PythonTaReporter._BREAK)
  ∧ report "all" =
    Some (head
          +:+ PlainReporter.style_err_title +:+ PythonTaReporter._BREAK
          +:+ "C0303 (trailing-whitespace)  Number of occurrences: 1."
          +:+ PythonTaReporter._BREAK
          +:+ "  [Line 1] Trailing whitespace" +:+ PythonTaReporter._BREAK
          +:+ Sample.snippet_line_1
          +:+ PythonTaReporter._BREAK
          +:+ PythonTaReporter._BREAK).
Proof.
  intros report head. subst report. cbv beta.
  split.
  - destruct (print_messages_sections PythonTaReporter._colourify
                (PlainReporter.Finite 0) "errors" "Tue. Nov. 03 2026, 10:00:00 AM"
                Sample.two_findings eq_refl)
      as (errors & styles & st' & He & Hst & _ & _ & Hprint & Hout & _).
    rewrite Hprint. cbn [fmap option_fmap option_map]. rewrite Hout.
    vm_compute in He, Hst. injection He as <-. injection Hst as <-.
    reflexivity.
  - destruct (print_messages_sections PythonTaReporter._colourify
                (PlainReporter.Finite 0) "all" "Tue. Nov. 03 2026, 10:00:00 AM"
                Sample.two_findings eq_refl)
      as (errors & styles & st' & He & Hst & _ & _ & Hprint & Hout & _).
    rewrite Hprint. cbn [fmap option_fmap option_map]. rewrite Hout.
    vm_compute in He, Hst. injection He as <-. injection Hst as <-.
    reflexivity.
Defined.

(** ** Recording and augmenting *)

Section Recording.
Import PythonTaReporter.

Lemma handle_message_view (m : Entry) (st : State) (f : string) :
  messages_of (handle_message m st) f =
  if decide (f = current_file st) then messages_of st f ++ [m]
  else messages_of st f.
Proof.
  unfold handle_message, messages_of.
  pose proof (dd_get_list (current_file st) (messages st)) as Hl.
  pose proof (dd_get_view (current_file st) f (messages st)) as Hv.
  destruct (dd_get _ _) as [l d]. cbn [fst snd] in *. cbn.
  case_decide as Hf.
  - subst f. by rewrite lookup_insert_eq, Hl.
  - by rewrite lookup_insert_ne.
Qed.

Lemma handle_message_fields (m : Entry) (st : State) :
  current_file (handle_message m st) = current_file st
  ∧ source_lines (handle_message m st) = source_lines st
  ∧ module_name (handle_message m st) = module_name st
  ∧ out (handle_message m st) = out st.
Proof. unfold handle_message. by destruct (dd_get _ _). Qed.

Lemma all_augmented_view (st : State) :
  all_augmented st ↔ ∀ f, forallb has_snippet (messages_of st f) = true.
Proof.
  unfold all_augmented, messages_of. rewrite map_Forall_lookup. split.
  - intros Hall f. destruct (messages st !! f) as [l|] eqn:Hf; [|done].
    by apply (Hall f).
  - intros Hall f l Hf. specialize (Hall f). by rewrite Hf in Hall.
Qed.

Section WithPrinter.
Variable render_message : Entry → option NodeNG → list string → list SnippetLine.
Variable add_line : option Z → LineType → Slice → string → string.

(** What [handle_node] leaves in the list of the current file. *)
Lemma handle_node_current (mdef : MessageDefinition) (node : option NodeNG)
    (st : State) :
  let l := messages_of st (current_file st) in
  messages_of (handle_node render_message add_line mdef node st) (current_file st) = l
  ∨ ∃ l0 m s, l = l0 ++ [m] ∧ msg_id m = msgid mdef
      ∧ messages_of (handle_node render_message add_line mdef node st)
          (current_file st) = l0 ++ [NewMessage m node (Some s)].
Proof.
  intros l. subst l.
  destruct (messages_of st (current_file st)) as [|m l0 _] eqn:Hl using rev_ind.
  - left. unfold messages_of at 1.
    rewrite handle_node_on_empty by done. by rewrite dd_get_view.
  - destruct (decide (msg_id m = msgid mdef)) as [Hid|Hne].
    + right. exists l0, m. eexists. split; [done|]. split; [done|].
      by apply handle_node_matches.
    + left. unfold messages_of at 1.
      rewrite (handle_node_other_rule _ _ _ _ _ m); [|by rewrite Hl, last_snoc|done].
      rewrite dd_get_view. exact Hl.
Qed.
End WithPrinter.
End Recording.

(** X1. [handle_message] appends. The message is added at the end of the
    list of the current file; the list of every other file, the tracked
    file, the source buffer and the output are unchanged; and from then on
    [has_messages] holds. *)
Theorem handle_message_appends (m : Entry) (st : PythonTaReporter.State) :
  let st' := PythonTaReporter.handle_message m st in
  let cur := PythonTaReporter.current_file st in
  PythonTaReporter.messages_of st' cur = PythonTaReporter.messages_of st cur ++ [m]
  ∧ (∀ f, f ≠ cur →
       PythonTaReporter.messages_of st' f = PythonTaReporter.messages_of st f)
  ∧ PythonTaReporter.has_messages st' = true
  ∧ PythonTaReporter.current_file st' = cur
  ∧ PythonTaReporter.source_lines st' = PythonTaReporter.source_lines st
  ∧ PythonTaReporter.module_name st' = PythonTaReporter.module_name st
  ∧ PythonTaReporter.out st' = PythonTaReporter.out st.
Proof.
  intros st' cur.
  assert (PythonTaReporter.messages_of st' cur =
          PythonTaReporter.messages_of st cur ++ [m]) as Hcur.
  { unfold st'. rewrite handle_message_view. by rewrite decide_True. }
  destruct (handle_message_fields m st) as (? & ? & ? & ?).
  split_and!; try done.
  - intros f Hf. unfold st'. rewrite handle_message_view. by rewrite decide_False.
  - apply has_messages_view. exists cur. rewrite Hcur.
    by destruct (PythonTaReporter.messages_of st cur).
Qed.

(** X2. [handle_node] never adds, drops or swaps a diagnostic. Whatever
    the rule and the node, and whether it augments or not, every file keeps
    the same pylint messages in the same order: the call only wraps. *)
Theorem handle_node_keeps_originals
    (render_message : Entry → option NodeNG → list string → list SnippetLine)
    (add_line : option Z → LineType → Slice → string → string)
    (mdef : PythonTaReporter.MessageDefinition) (node : option NodeNG)
    (st : PythonTaReporter.State) (f : string) :
  originals (PythonTaReporter.handle_node render_message add_line mdef node st) f =
  originals st f.
Proof.
  unfold originals. destruct (decide (f = PythonTaReporter.current_file st)) as [->|Hf].
  - destruct (handle_node_current render_message add_line mdef node st)
      as [-> | (l0 & m & s & Hl & _ & ->)]; [done|].
    rewrite Hl, !fmap_app. done.
  - by rewrite handle_node_other_file.
Qed.

Lemma forallb_snoc_augmented (l : list Entry) (m : Entry)
    (node : option NodeNG) (s : string) :
  forallb has_snippet l = true →
  forallb has_snippet (l ++ [NewMessage m node (Some s)]) = true.
Proof. intros Hl. by rewrite forallb_app, Hl. Qed.

(** X3. The recording protocol keeps every entry augmented. In a state
    where every entry of every file is a [NewMessage] with a string
    snippet, [handle_node] alone leaves it so, and [handle_message] followed
    by the [handle_node] of the same rule adds one augmented entry around
    the message at the end of the current list and leaves it so: no plain
    message is left behind for the renderer. *)
Theorem record_keeps_augmented
    (render_message : Entry → option NodeNG → list string → list SnippetLine)
    (add_line : option Z → LineType → Slice → string → string)
    (mdef : PythonTaReporter.MessageDefinition) (node : option NodeNG)
    (st : PythonTaReporter.State) :
  all_augmented st →
  all_augmented (PythonTaReporter.handle_node render_message add_line mdef node st)
  ∧ (∀ m, msg_id m = PythonTaReporter.msgid mdef →
       let st' := PythonTaReporter.handle_node render_message add_line mdef node
                    (PythonTaReporter.handle_message m st) in
       all_augmented st'
       ∧ ∃ s, PythonTaReporter.messages_of st' (PythonTaReporter.current_file st) =
              PythonTaReporter.messages_of st (PythonTaReporter.current_file st)
                ++ [NewMessage m node (Some s)]).
Proof.
  rewrite !all_augmented_view. intros Hall. split.
  - intros f. destruct (decide (f = PythonTaReporter.current_file st)) as [->|Hf].
    + destruct (handle_node_current render_message add_line mdef node st)
        as [-> | (l0 & m & s & Hl & _ & ->)]; [done|].
      apply forallb_snoc_augmented. specialize (Hall (PythonTaReporter.current_file st)).
      rewrite Hl, forallb_app in Hall. by apply andb_true_iff in Hall as [? _].
    + by rewrite handle_node_other_file.
  - intros m Hid st'.
    destruct (handle_message_fields m st) as (Hcur & _).
    assert (PythonTaReporter.messages_of st' (PythonTaReporter.current_file st) =
            PythonTaReporter.messages_of st (PythonTaReporter.current_file st)
              ++ [NewMessage m node (Some
                   (if (str_in (symbol m) NO_SNIPPET
                        || PyStr.startswith (msg m) "Invalid module")%bool
                    then ""
                    else PythonTaReporter._build_snippet render_message add_line
                           (PythonTaReporter.handle_message m st) m node))]) as Hst'.
    { unfold st'. rewrite <- Hcur. apply handle_node_matches; [|done].
      rewrite handle_message_view, Hcur. by rewrite decide_True. }
    split; [|by eexists].
    apply all_augmented_view. intros f.
    destruct (decide (f = PythonTaReporter.current_file st)) as [->|Hf].
    + rewrite Hst'. by apply forallb_snoc_augmented.
    + unfold st'. rewrite handle_node_other_file by by rewrite Hcur.
      rewrite handle_message_view. by rewrite decide_False.
Qed.

(** X3 at work: a third finding recorded after the two of the sample. *)
Lemma record_keeps_augmented_witness :
  let mdef := PythonTaReporter.mkMessageDefinition "C0103" in
  all_augmented Sample.two_findings
  ∧ all_augmented
      (PythonTaReporter.handle_node Sample.render_message Sample.add_line mdef None
         (PythonTaReporter.handle_message Sample.invalid_name Sample.two_findings)).
Proof.
  intros mdef.
  assert (all_augmented Sample.two_findings) as Hall.
  { apply (bool_decide_unpack _). by vm_compute. }
  split; [exact Hall|].
  apply (record_keeps_augmented Sample.render_message Sample.add_line mdef None
           Sample.two_findings Hall).
  reflexivity.
Defined.

(** ** Lines of other roles, the gutter and the overline *)

Lemma repeat_succ (c : ascii) (n : Z) :
  0 ≤ n → PyStr.repeat c (1 + n) = String c (PyStr.repeat c n).
Proof.
  intros Hn. unfold PyStr.repeat.
  replace (Z.to_nat (1 + n)) with (S (Z.to_nat n)) by lia. done.
Qed.

Lemma repeat_length (c : ascii) (n : Z) :
  String.length (PyStr.repeat c n) = Z.to_nat n.
Proof.
  unfold PyStr.repeat. induction (Z.to_nat n) as [|k IH]; [done|].
  cbn. by rewrite IH.
Qed.

Lemma lstrip_space_cons (c : ascii) (r : string) :
  PyStr.lstrip_space (String c r) =
  if Ascii.eqb c " " then PyStr.lstrip_space r else String c r.
Proof. by destruct c as [[] [] [] [] [] [] [] []]. Qed.

Lemma lstrip_space_length (s : string) :
  PyStr.len (PyStr.lstrip_space s) ≤ PyStr.len s.
Proof.
  unfold PyStr.len. induction s as [|c r IH]; [done|].
  rewrite lstrip_space_cons. destruct (Ascii.eqb c " "); cbn [String.length]; lia.
Qed.

(** Padding the stripped text with the spaces it lost gives the text. *)
Lemma lstrip_space_pad (s : string) :
  PyStr.repeat " " (PyStr.len s - PyStr.len (PyStr.lstrip_space s))
    +:+ PyStr.lstrip_space s = s.
Proof.
  induction s as [|c r IH]; [done|].
  pose proof (lstrip_space_length r) as Hr.
  rewrite lstrip_space_cons. destruct (Ascii.eqb_spec c " ") as [->|Hc].
  - replace (PyStr.len (String " " r) - PyStr.len (PyStr.lstrip_space r))
      with (1 + (PyStr.len r - PyStr.len (PyStr.lstrip_space r)))
      by (unfold PyStr.len; cbn [String.length]; lia).
    rewrite repeat_succ by lia. by rewrite str_app_cons, IH.
  - by rewrite Z.sub_diag.
Qed.

(** X4. Lines of the other roles keep their text. Under the identity
    colouring of the base reporter a CONTEXT, OTHER or DOCSTRING line is the
    gutter, the text of the line as it is and a line break, whatever the
    slice: the leading spaces that a DOCSTRING line takes off before
    highlighting are put back in front. *)
Theorem add_line_other_roles_text
    (lineno : option Z) (slice_ : Slice) (text : string) :
  PythonTaReporter._add_line PythonTaReporter._colourify lineno CONTEXT slice_ text =
    PythonTaReporter._add_line_number PythonTaReporter._colourify lineno CONTEXT
      +:+ text +:+ PythonTaReporter._BREAK
  ∧ PythonTaReporter._add_line PythonTaReporter._colourify lineno OTHER slice_ text =
    PythonTaReporter._add_line_number PythonTaReporter._colourify lineno OTHER
      +:+ text +:+ PythonTaReporter._BREAK
  ∧ PythonTaReporter._add_line PythonTaReporter._colourify lineno DOCSTRING slice_ text =
    PythonTaReporter._add_line_number PythonTaReporter._colourify lineno DOCSTRING
      +:+ text +:+ PythonTaReporter._BREAK.
Proof.
  unfold PythonTaReporter._add_line, PythonTaReporter._colourify. split_and!.
  - by rewrite str_app_assoc.
  - by rewrite str_app_assoc.
  - cbv zeta. rewrite !str_app_assoc. f_equal.
    by rewrite <- str_app_assoc, lstrip_space_pad.
Qed.

(** *** The width of decimal numbers *)

Lemma pretty_N_go_length_ge (x : N) (s : string) :
  (String.length s ≤ String.length (pretty_N_go x s))%nat.
Proof.
  revert s. induction (N.lt_wf_0 x) as [x _ IH]; intros s.
  destruct (decide (x = 0%N)) as [->|Hx]; [by rewrite pretty_N_go_0|].
  rewrite pretty_N_go_step by lia.
  etrans; [|apply IH; apply N.div_lt; lia]. cbn. lia.
Qed.

Lemma pretty_N_go_length_le (k : nat) (x : N) (s : string) :
  (x < 10 ^ N.of_nat k)%N →
  (String.length (pretty_N_go x s) ≤ k + String.length s)%nat.
Proof.
  revert x s. induction k as [|k IH]; intros x s Hx.
  - assert (x = 0%N) as -> by (cbn in Hx; lia). by rewrite pretty_N_go_0.
  - destruct (decide (x = 0%N)) as [->|Hx0]; [rewrite pretty_N_go_0; lia|].
    rewrite pretty_N_go_step by lia.
    etrans; [apply IH|cbn; lia].
    apply N.Div0.div_lt_upper_bound.
    replace (N.of_nat (S k)) with (N.succ (N.of_nat k)) in Hx by lia.
    by rewrite N.pow_succ_r' in Hx.
Qed.

Lemma pretty_N_go_length_gt (k : nat) (x : N) (s : string) :
  (10 ^ N.of_nat k ≤ x)%N →
  (k + 1 + String.length s ≤ String.length (pretty_N_go x s))%nat.
Proof.
  revert x s. induction k as [|k IH]; intros x s Hx.
  - cbn in Hx. rewrite pretty_N_go_step by lia.
    etrans; [|apply pretty_N_go_length_ge]. cbn. lia.
  - replace (N.of_nat (S k)) with (N.succ (N.of_nat k)) in Hx by lia.
    rewrite N.pow_succ_r' in Hx.
    assert (0 < 10 ^ N.of_nat k)%N by (apply N.neq_0_lt_0, N.pow_nonzero; lia).
    rewrite pretty_N_go_step by lia.
    etrans; [|apply IH]; [cbn; lia|].
    apply N.div_le_lower_bound; lia.
Qed.

(** The decimal form of a line number up to 999 has one to three
    characters; from 1000 on it has at least four. *)
Lemma of_int_length_small (n : Z) :
  0 ≤ n ≤ 999 → (1 ≤ String.length (PyStr.of_int n) ≤ 3)%nat.
Proof.
  intros Hn. unfold PyStr.of_int, pretty, pretty_Z.
  destruct n as [|p|p]; [cbn; lia| |lia].
  unfold pretty, pretty_positive, pretty, pretty_N.
  rewrite decide_False by done. split.
  - apply (pretty_N_go_length_gt 0 (N.pos p) ""). cbn. lia.
  - apply (pretty_N_go_length_le 3 (N.pos p) ""). cbn. lia.
Qed.

Lemma of_int_length_large (n : Z) :
  1000 ≤ n → (4 ≤ String.length (PyStr.of_int n))%nat.
Proof.
  intros Hn. unfold PyStr.of_int, pretty, pretty_Z.
  destruct n as [|p|p]; [lia| |lia].
  unfold pretty, pretty_positive, pretty, pretty_N.
  rewrite decide_False by done.
  apply (pretty_N_go_length_gt 3 (N.pos p) ""). cbn. lia.
Qed.

Lemma rjust3_length (n : Z) :
  String.length (PyStr.rjust3 n) = (3 `max` String.length (PyStr.of_int n))%nat.
Proof.
  unfold PyStr.rjust3. cbv zeta. rewrite str_length_app, repeat_length.
  unfold PyStr.len. lia.
Qed.

Lemma add_line_number_length (lineno : option Z) (linetype : LineType) :
  String.length
    (PythonTaReporter._add_line_number PythonTaReporter._colourify lineno linetype) =
  (4 + match lineno with
       | Some n => 3 `max` String.length (PyStr.of_int n)
       | None => 3
       end)%nat.
Proof.
  unfold PythonTaReporter._add_line_number, PythonTaReporter._colourify.
  destruct linetype, lineno as [n|]; cbv zeta;
    rewrite !str_length_app, ?rjust3_length, !repeat_length;
    unfold PythonTaReporter._PRE_LINE_NUM_SPACES, PythonTaReporter._AFTER_NUM_SPACES,
      PythonTaReporter._NUM_LENGTH_SPACES; lia.
Qed.

(** X5. The width of the line-number gutter. Under the identity colouring
    the gutter is seven characters wide when there is no line number and
    for every line number from 0 to 999; a line number from 1000 on is
    written out in full, which makes the gutter wider by the digits beyond
    three. *)
Theorem add_line_number_width (lineno : option Z) (linetype : LineType) :
  let width :=
    String.length
      (PythonTaReporter._add_line_number PythonTaReporter._colourify lineno linetype) in
  (lineno = None → width = 7%nat)
  ∧ (∀ n, lineno = Some n → 0 ≤ n ≤ 999 → width = 7%nat)
  ∧ (∀ n, lineno = Some n → 1000 ≤ n →
       width = (4 + String.length (PyStr.of_int n))%nat ∧ (8 ≤ width)%nat).
Proof.
  intros width. subst width. rewrite add_line_number_length. split_and!.
  - by intros ->.
  - intros n -> Hn. pose proof (of_int_length_small n Hn). lia.
  - intros n -> Hn. pose proof (of_int_length_large n Hn). lia.
Qed.

(** *** The overline row of the plain reporter *)

Lemma slice_prefix_length (text : string) (a : Z) :
  0 ≤ a ≤ PyStr.len text →
  String.length (PyStr.slice text None (Some a)) = Z.to_nat a.
Proof.
  intros Ha. rewrite slice_substring. cbn [PyStr.lower PyStr.upper].
  rewrite adjust_in_range, Z.sub_0_r by done.
  apply substring_length. unfold PyStr.len in Ha. lia.
Qed.

Lemma gutter_seven (lineno : option Z) (linetype : LineType) :
  lineno = None ∨ (∃ n, lineno = Some n ∧ 0 ≤ n ≤ 999) →
  String.length
    (PythonTaReporter._add_line_number PythonTaReporter._colourify lineno linetype)
  = 7%nat.
Proof.
  rewrite add_line_number_length. intros [->|(n & -> & Hn)]; [done|].
  pose proof (of_int_length_small n Hn). lia.
Qed.

(** X6. The overline row of the plain reporter sits under the highlighted
    part. With a seven-character gutter (no line number, or one up to 999)
    and the identity colouring: under an ERROR line whose start column lies
    within the line, the row is indented by exactly the width of the gutter
    and of the text before the span, and has one overline for each
    character of the span; under a DOCSTRING line it is indented by the
    gutter and the leading spaces and has one overline for each character
    of the stripped text; CONTEXT and OTHER lines get no row. *)
Theorem overline_alignment (lineno : option Z) (slice_ : Slice) (text : string) :
  lineno = None ∨ (∃ n, lineno = Some n ∧ 0 ≤ n ≤ 999) →
  let gutter := PythonTaReporter._add_line_number PythonTaReporter._colourify lineno in
  let plain := PlainReporter._add_line PythonTaReporter._colourify lineno in
  (0 ≤ default 0 (start slice_) ≤ PyStr.len text →
   let pre := PyStr.slice text None (Some (default 0 (start slice_))) in
   let span := PyStr.slice text (start slice_) (stop slice_) in
   let post :=
     PyStr.slice text (Some (or_int (stop slice_) (PyStr.len text))) None in
   plain ERROR slice_ text =
     (gutter ERROR +:+ pre +:+ span +:+ post +:+ PythonTaReporter._BREAK)
     +:+ PyStr.repeat " " (Z.of_nat (String.length (gutter ERROR +:+ pre)))
     +:+ PyStr.repeat_str PlainReporter._OVERLINE (PyStr.len span)
     +:+ PythonTaReporter._BREAK)
  ∧ (let stripped := PyStr.lstrip_space text in
     let indent := PyStr.repeat " " (PyStr.len text - PyStr.len stripped) in
     plain DOCSTRING slice_ text =
     (gutter DOCSTRING +:+ indent +:+ stripped +:+ PythonTaReporter._BREAK)
     +:+ PyStr.repeat " " (Z.of_nat (String.length (gutter DOCSTRING +:+ indent)))
     +:+ PyStr.repeat_str PlainReporter._OVERLINE (PyStr.len stripped)
     +:+ PythonTaReporter._BREAK)
  ∧ plain CONTEXT slice_ text =
    PythonTaReporter._add_line PythonTaReporter._colourify lineno CONTEXT slice_ text
  ∧ plain OTHER slice_ text =
    PythonTaReporter._add_line PythonTaReporter._colourify lineno OTHER slice_ text.
Proof.
  intros Hline gutter plain. subst gutter plain. split_and!; try done.
  - intros Hstart pre span post.
    assert (Z.of_nat (String.length
              (PythonTaReporter._add_line_number PythonTaReporter._colourify
                 lineno ERROR +:+ pre)) =
            PythonTaReporter._PRE_LINE_NUM_SPACES + PythonTaReporter._NUM_LENGTH_SPACES
            + PythonTaReporter._AFTER_NUM_SPACES + default 0 (start slice_)) as ->.
    { rewrite str_length_app, (gutter_seven _ _ Hline).
      unfold pre. rewrite slice_prefix_length by done.
      unfold PythonTaReporter._PRE_LINE_NUM_SPACES,
        PythonTaReporter._NUM_LENGTH_SPACES, PythonTaReporter._AFTER_NUM_SPACES. lia. }
    unfold PlainReporter._add_line, PlainReporter._overline_helper,
      PythonTaReporter._add_line. cbv zeta.
    rewrite or_int_0. fold pre span post.
    rewrite !(guarded_app (PythonTaReporter._colourify "black")) by done.
    unfold PythonTaReporter._colourify.
    by rewrite !str_app_assoc.
  - intros stripped indent.
    pose proof (lstrip_space_length text) as Hle. fold stripped in Hle.
    assert (Z.of_nat (String.length
              (PythonTaReporter._add_line_number PythonTaReporter._colourify
                 lineno DOCSTRING +:+ indent)) =
            PythonTaReporter._PRE_LINE_NUM_SPACES + PythonTaReporter._NUM_LENGTH_SPACES
            + PythonTaReporter._AFTER_NUM_SPACES + PyStr.len text - PyStr.len stripped)
      as ->.
    { rewrite str_length_app, (gutter_seven _ _ Hline).
      unfold indent. rewrite repeat_length.
      unfold PythonTaReporter._PRE_LINE_NUM_SPACES,
        PythonTaReporter._NUM_LENGTH_SPACES, PythonTaReporter._AFTER_NUM_SPACES. lia. }
    unfold PlainReporter._add_line, PlainReporter._overline_helper,
      PythonTaReporter._add_line. cbv zeta. fold stripped. fold indent.
    unfold PythonTaReporter._colourify.
    by rewrite !str_app_assoc.
Qed.

(** X6 at work: line 3 of the sample, columns 6 to 7. *)
Lemma overline_alignment_witness :
  PlainReporter._add_line PythonTaReporter._colourify (Some 3) ERROR
    (mkSlice (Some 6) (Some 7)) "print(x + y)" =
  ("    3  " +:+ "print(" +:+ "x" +:+ " + y)" +:+ PythonTaReporter._BREAK)
  +:+ PyStr.repeat " " 13 +:+ PlainReporter._OVERLINE +:+ PythonTaReporter._BREAK.
Proof.
  destruct (overline_alignment (Some 3) (mkSlice (Some 6) (Some 7)) "print(x + y)")
    as [Herr _].
  { right. exists 3. split; [reflexivity | lia]. }
  rewrite Herr by (unfold PyStr.len; cbn; lia).
  reflexivity.
Defined.

(** ** Rendering group after group *)

Section Accumulator.
Import PythonTaReporter PlainReporter.
Variable colourify : string → string → string.
Variable mx : MaxMessages.

(** The loops only ever append to the text they are given. *)
Lemma occurrence_acc (result : string) (m : Entry) :
  occurrence colourify result m =
  String.append result <$> occurrence colourify "" m.
Proof.
  unfold occurrence. destruct (snippet_attr m) as [[s|]|]; cbn; [|done..].
  by rewrite !str_app_assoc.
Qed.

Lemma occurrences_acc (msgs : list Entry) (i : Z) (result : string) :
  occurrences colourify mx i msgs result =
  String.append result <$> occurrences colourify mx i msgs "".
Proof.
  revert i result. induction msgs as [|m msgs IH]; intros i result.
  - cbn. by rewrite str_app_nil_r.
  - cbn [occurrences]. destruct (max_nonzero mx && max_eq i mx)%bool.
    + cbn. by rewrite str_app_nil_r.
    + rewrite (occurrence_acc result).
      destruct (occurrence colourify "" m) as [t|]; cbn; [|done].
      rewrite (IH _ (result +:+ t)), (IH _ t).
      destruct (occurrences colourify mx (i + 1) msgs "") as [u|]; cbn; [|done].
      by rewrite str_app_assoc.
Qed.

Lemma group_acc (result k : string) (msgs : list Entry) :
  group colourify mx result k msgs =
  String.append result <$> group colourify mx "" k msgs.
Proof.
  unfold group. destruct msgs as [|first rest]; [done|]. cbn [head mbind option_bind].
  cbv zeta. rewrite occurrences_acc. symmetry. rewrite occurrences_acc.
  destruct (occurrences colourify mx 0 (first :: rest) "") as [u|]; cbn; [|done].
  f_equal.
  destruct (max_nonzero mx && max_not_inf mx && max_lt mx _)%bool;
    by rewrite !str_app_assoc.
Qed.

Lemma groups_acc (g : Groups) (result : string) :
  groups colourify mx g result =
  String.append result <$> groups colourify mx g "".
Proof.
  revert result. induction g as [|[k msgs] g IH]; intros result.
  - cbn. by rewrite str_app_nil_r.
  - cbn [groups]. rewrite (group_acc result).
    destruct (group colourify mx "" k msgs) as [t|]; cbn; [|done].
    rewrite (IH (result +:+ t)), (IH t).
    destruct (groups colourify mx g "") as [u|]; cbn; [|done].
    by rewrite str_app_assoc.
Qed.

Lemma groups_app (g1 g2 : Groups) (result : string) :
  groups colourify mx (g1 ++ g2) result =
  groups colourify mx g1 result ≫= groups colourify mx g2.
Proof.
  revert result. induction g1 as [|[k msgs] g1 IH]; intros result; [done|].
  cbn [app groups]. destruct (group colourify mx result k msgs); cbn; [|done].
  apply IH.
Qed.
End Accumulator.

(** X7. Rule groups render independently. The text of a mapping is the
    text of its first groups followed by the text of the remaining groups,
    each as it would render on its own; it exists exactly when both
    exist. *)
Theorem colour_messages_by_type_app
    (colourify : string → string → string) (mx : PlainReporter.MaxMessages)
    (g1 g2 : PythonTaReporter.Groups) :
  PlainReporter._colour_messages_by_type colourify mx (g1 ++ g2) =
  (r1 ← PlainReporter._colour_messages_by_type colourify mx g1;
   r2 ← PlainReporter._colour_messages_by_type colourify mx g2;
   Some (r1 +:+ r2)).
Proof.
  unfold PlainReporter._colour_messages_by_type. rewrite groups_app.
  destruct (PlainReporter.groups colourify mx g1 "") as [r1|]; cbn; [|done].
  rewrite groups_acc.
  by destruct (PlainReporter.groups colourify mx g2 "").
Qed.

(** ** When rendering raises *)

Section Raising.
Import PythonTaReporter PlainReporter.
Variable colourify : string → string → string.
Variable mx : MaxMessages.







End Raising.



(** ** A negative maximum *)

(** Past the maximum the loop never meets the index at which it breaks. *)
Lemma occurrences_past_max (colourify : string → string → string) (M : Z)
    (msgs : list Entry) (i : Z) (result : string) :
  M < i →
  forallb has_snippet msgs = true →
  PlainReporter.occurrences colourify (PlainReporter.Finite M) i msgs result =
  Some (result +:+ join (occurrence_text colourify <$> msgs)).
Proof.
  revert i result. induction msgs as [|m msgs IH]; intros i result Hi Hs.
  - cbn. by rewrite str_app_nil_r.
  - cbn [forallb] in Hs. apply andb_true_iff in Hs as [Hm Hs].
    cbn [PlainReporter.occurrences PlainReporter.max_eq].
    destruct (Z.eqb_spec i M) as [?|_]; [lia|]. rewrite andb_false_r.
    rewrite occurrence_Some by done. cbn.
    rewrite IH by (done || lia). cbn. by rewrite str_app_assoc.
Qed.

(** X9. A negative maximum. For a maximum [M < 0] and a non-empty group
    of augmented entries, the header carries the note naming [M] although
    nothing is cut: all the occurrences of the group are rendered. *)
Theorem negative_maximum_shows_all
    (colourify : string → string → string) (M : Z) (result k : string)
    (msgs : list Entry) :
  M < 0 →
  msgs ≠ [] →
  forallb has_snippet msgs = true →
  PlainReporter.group colourify (PlainReporter.Finite M) result k msgs =
  Some (result +:+ group_header colourify k msgs
        +:+ (" (First " +:+ PyStr.of_int M +:+ " shown).")
        +:+ PythonTaReporter._BREAK
        +:+ join (occurrence_text colourify <$> msgs)).
Proof.
  intros HM Hne Hs. rewrite group_unfold by done.
  cbn [PlainReporter.max_nonzero PlainReporter.max_not_inf PlainReporter.max_lt
       PlainReporter.max_format].
  destruct (Z.eqb_spec M 0) as [?|_]; [lia|].
  destruct (Z.ltb_spec M (Z.of_nat (length msgs))) as [_|?]; [|lia].
  cbn [negb andb]. rewrite occurrences_past_max by (done || lia).
  by rewrite !str_app_assoc.
Qed.

(** X9 at work: three occurrences under the maximum -1. *)
Lemma negative_maximum_shows_all_witness :
  let shown (n : Z) :=
    "  [Line " +:+ PyStr.of_int n +:+ "] Trailing whitespace"
    +:+ PythonTaReporter._BREAK +:+ PythonTaReporter._BREAK in
  PlainReporter._colour_messages_by_type PythonTaReporter._colourify
    (PlainReporter.Finite (-1)) [("C0303", Sample.three_occurrences)] =
  Some ("C0303 (trailing-whitespace)  Number of occurrences: 3. (First -1 shown)."
        +:+ PythonTaReporter._BREAK +:+ shown 1 +:+ shown 2 +:+ shown 3).
Proof.
  intros shown. unfold PlainReporter._colour_messages_by_type.
  cbn [PlainReporter.groups].
  rewrite (negative_maximum_shows_all PythonTaReporter._colourify (-1) "" "C0303"
             Sample.three_occurrences); [reflexivity | lia | discriminate | reflexivity].
Defined.

(** ** Printing again *)

(** X10. Printing keeps the messages. When [print_messages] returns, the
    output has grown by the report and a line break, every list of messages
    is as before, and printing again with the same time stamp returns and
    writes the very same report once more: nothing is cleared by a
    report. *)
Theorem print_messages_again
    (colourify : string → string → string) (mx : PlainReporter.MaxMessages)
    (level now : string) (st st1 : PythonTaReporter.State) :
  PlainReporter.print_messages colourify mx level now st = Some st1 →
  ∃ r,
    PlainReporter.report colourify mx level now (PythonTaReporter.current_file st)
      (PythonTaReporter.messages_of st (PythonTaReporter.current_file st)) = Some r
    ∧ PythonTaReporter.out st1 =
        PythonTaReporter.out st +:+ r +:+ PythonTaReporter._BREAK
    ∧ (∀ f, PythonTaReporter.messages_of st1 f = PythonTaReporter.messages_of st f)
    ∧ PythonTaReporter.current_file st1 = PythonTaReporter.current_file st
    ∧ PythonTaReporter.source_lines st1 = PythonTaReporter.source_lines st
    ∧ PlainReporter.print_messages colourify mx level now st1 =
        Some {| PythonTaReporter.messages := PythonTaReporter.messages st1;
                PythonTaReporter.source_lines := PythonTaReporter.source_lines st1;
                PythonTaReporter.module_name := PythonTaReporter.module_name st1;
                PythonTaReporter.current_file := PythonTaReporter.current_file st1;
                PythonTaReporter.out :=
                  PythonTaReporter.out st1 +:+ r +:+ PythonTaReporter._BREAK |}.
Proof.
  unfold PlainReporter.print_messages at 1.
  pose proof (dd_get_list (PythonTaReporter.current_file st)
                (PythonTaReporter.messages st)) as Hl.
  pose proof (dd_get_view (PythonTaReporter.current_file st)) as Hv.
  specialize (Hv) with (d := PythonTaReporter.messages st).
  pose proof (dd_get_lookup (PythonTaReporter.current_file st)
                (PythonTaReporter.messages st)) as Hk.
  destruct (PythonTaReporter.dd_get _ _) as [l d]. cbn [fst snd] in *.
  fold (PythonTaReporter.messages_of st (PythonTaReporter.current_file st)) in Hl, Hk.
  subst l.
  destruct (PlainReporter.report _ _ _ _ _ _) as [r|] eqn:Hr; [|done].
  cbn. intros [= <-]. exists r. cbn. split_and!; try done.
  unfold PlainReporter.print_messages, PythonTaReporter.dd_get. cbn.
  rewrite Hk. cbn. by rewrite Hr.
Qed.

(** X10 at work: the two findings of the sample, printed twice. *)
Lemma print_messages_again_witness :
  ∃ st1 st2,
    PlainReporter.print_messages PythonTaReporter._colourify (PlainReporter.Finite 0)
      "all" "now" Sample.two_findings = Some st1
    ∧ PlainReporter.print_messages PythonTaReporter._colourify (PlainReporter.Finite 0)
        "all" "now" st1 = Some st2
    ∧ PythonTaReporter.messages st2 = PythonTaReporter.messages Sample.two_findings.
Proof.
  destruct (PlainReporter.print_messages PythonTaReporter._colourify
              (PlainReporter.Finite 0) "all" "now" Sample.two_findings)
    as [st1|] eqn:Hp; [|by vm_compute in Hp].
  destruct (print_messages_again _ _ _ _ _ _ Hp)
    as (r & _ & _ & _ & _ & _ & Hagain).
  eexists st1, _. split; [done|]. split; [exact Hagain|]. cbn.
  vm_compute in Hp. by injection Hp as <-.
Defined.

(** ** The order of the rule groups *)

Lemma elem_of_distinct (k : string) (l : list string) :
  k ∈ distinct l ↔ k ∈ l.
Proof.
  induction l as [|x l IH]; cbn; [done|].
  rewrite !elem_of_cons, list_elem_of_filter, IH.
  destruct (decide (k = x)) as [->|Hne]; [by split; left|].
  split; [intros [?|[_ ?]]; auto | intros [?|?]; auto].
Qed.

Lemma distinct_snoc (l : list string) (k : string) :
  distinct (l ++ [k]) = if decide (k ∈ l) then distinct l else distinct l ++ [k].
Proof.
  induction l as [|x l IH]; cbn.
  - destruct (decide (k ∈ [])) as [Hin|_]; [by apply elem_of_nil in Hin | done].
  - rewrite IH.
    destruct (decide (k ∈ l)) as [Hin|Hnin];
      destruct (decide (k ∈ x :: l)) as [Hin'|Hnin']; try done.
    + exfalso. apply Hnin'. by right.
    + apply elem_of_cons in Hin' as [->|?]; [|done].
      rewrite filter_app. cbn. rewrite decide_False by (by intros ?).
      by rewrite app_nil_r.
    + rewrite filter_app. cbn. rewrite decide_True; [done|].
      intros ->. apply Hnin'. by left.
Qed.

Lemma rules_of_bucket_snoc (b : bool) (l : list Entry) (m : Entry) :
  rules_of_bucket b (l ++ [m]) =
  rules_of_bucket b l
    ++ (if decide (PythonTaReporter.is_error m = b) then [msg_id m] else []).
Proof.
  unfold rules_of_bucket. rewrite filter_app, fmap_app. f_equal.
  cbn. by case_decide.
Qed.

Lemma dd_append_keys_distinct (k : string) (v : Entry)
    (g : PythonTaReporter.Groups) (ks : list string) :
  g.*1 = distinct ks →
  (PythonTaReporter.dd_append k v g).*1 = distinct (ks ++ [k]).
Proof.
  intros Hg. rewrite dd_append_keys, distinct_snoc, Hg.
  destruct (decide (k ∈ ks)) as [Hin|Hnin].
  - rewrite decide_True; [done | by apply elem_of_distinct].
  - rewrite decide_False; [done | by rewrite elem_of_distinct].
Qed.

Lemma group_fold_keys (msgs seen : list Entry)
    (acc : PythonTaReporter.Groups * PythonTaReporter.Groups) :
  acc.1.*1 = distinct (rules_of_bucket true seen) →
  acc.2.*1 = distinct (rules_of_bucket false seen) →
  (fold_left PythonTaReporter.group_step msgs acc).1.*1 =
    distinct (rules_of_bucket true (seen ++ msgs))
  ∧ (fold_left PythonTaReporter.group_step msgs acc).2.*1 =
    distinct (rules_of_bucket false (seen ++ msgs)).
Proof.
  revert seen acc. induction msgs as [|m msgs IH]; intros seen [e s] He Hs.
  - by rewrite app_nil_r.
  - cbn [fold_left]. rewrite (cons_middle m), (assoc_L (++)).
    cbn [fst snd] in He, Hs.
    apply IH; unfold PythonTaReporter.group_step;
      rewrite rules_of_bucket_snoc;
      destruct (PythonTaReporter.is_error m) eqn:Hm; cbn [fst snd];
      rewrite ?decide_True by done; rewrite ?decide_False by done;
      rewrite ?app_nil_r; auto using dd_append_keys_distinct.
Qed.

(** X11. The order of the rule groups. In each bucket the rule
    identifiers appear in the order in which the first message of each rule
    occurs in the input, each once: the order in which the renderer lists
    the groups. *)
Theorem group_messages_key_order (msgs : list Entry) :
  (PythonTaReporter.group_messages msgs).1.*1 = distinct (rules_of_bucket true msgs)
  ∧ (PythonTaReporter.group_messages msgs).2.*1 = distinct (rules_of_bucket false msgs).
Proof. by apply (group_fold_keys msgs [] ([], [])). Qed.

(** ** The dictionary of an augmented message *)

(** X12. What [to_dict] keeps. For a [NewMessage] around a pylint message
    the dictionary has the fields of the message with their values, next to
    the snippet and the two duplicated end positions. For a [NewMessage]
    around another [NewMessage] it has exactly the keys [message], [node],
    [snippet], [line_end] and [column_end]: the snippet is the outer one,
    the inner wrapper's own snippet is overwritten, and the fields of the
    diagnostic (its rule identifier, text, line, ...) are not there. *)
Theorem to_dict_keys
    (e : Entry) (n1 n2 : option NodeNG) (s1 s2 : option string) :
  (∀ m, e = Plain m →
     ∃ d, to_dict (NewMessage e n1 s1) = Some d
          ∧ d !! "msg_id" = Some (VStr (m_msg_id m))
          ∧ d !! "symbol" = Some (VStr (m_symbol m))
          ∧ d !! "msg" = Some (VStr (m_msg m))
          ∧ d !! "path" = Some (VStr (m_path m))
          ∧ d !! "line" = Some (VInt (m_line m))
          ∧ d !! "column" = Some (VInt (m_column m))
          ∧ d !! "end_line" = d !! "line_end"
          ∧ d !! "end_column" = d !! "column_end"
          ∧ d !! "snippet" = Some (v_opt_str s1)
          ∧ d !! "node" = None)
  ∧ (∃ d, to_dict (NewMessage (NewMessage e n1 s1) n2 s2) = Some d
          ∧ dom d = ({["message"; "node"; "snippet"; "line_end"; "column_end"]}
                     : gset string)
          ∧ d !! "message" = Some (VObj e)
          ∧ d !! "node" = Some (v_opt_node n1)
          ∧ d !! "snippet" = Some (v_opt_str s2)
          ∧ d !! "line_end" = Some (v_opt_int (end_line e))
          ∧ d !! "column_end" = Some (v_opt_int (end_column e))
          ∧ d !! "msg_id" = None ∧ d !! "msg" = None ∧ d !! "line" = None).
Proof.
  split.
  - intros m ->. eexists. split; [done|]. cbn [vars end_line end_column].
    split_and!;
      repeat (rewrite lookup_insert_ne by done);
      rewrite ?lookup_insert_eq; done.
  - eexists. split; [done|]. cbn [vars end_line end_column].
    split_and!;
      repeat (rewrite lookup_insert_ne by done);
      rewrite ?lookup_insert_eq; done.
Qed.

(** ** The source buffer after a switch *)

Lemma rstrip_eol_split (s : string) :
  ∃ tail, s = PyStr.rstrip_eol s +:+ tail ∧ all_eol tail = true.
Proof.
  induction s as [|c r (tail & Hr & Htail)]; [by exists ""|].
  cbn [PyStr.rstrip_eol]. destruct (PyStr.rstrip_eol r) as [|d r'] eqn:Hstrip.
  - rewrite str_app_nil_l in Hr. subst tail.
    destruct (PyStr.is_eol c) eqn:Hc.
    + exists (String c r). split; [done|]. cbn. by rewrite Hc.
    + by exists r.
  - exists tail. split; [|done]. by rewrite str_app_cons, <- Hr.
Qed.

Lemma rstrip_eol_end (s : string) : ends_with_eol (PyStr.rstrip_eol s) = false.
Proof.
  induction s as [|c r IH]; [done|].
  cbn [PyStr.rstrip_eol]. destruct (PyStr.rstrip_eol r) as [|d r'] eqn:Hstrip.
  - by destruct (PyStr.is_eol c) eqn:Hc; cbn; rewrite ?Hc.
  - exact IH.
Qed.

(** X13. The lines of the source buffer. When the module name can be
    expanded and tested for existence (neither step raises) and the file of
    a switch can be read, the call returns and the buffer holds one line
    for each line read, in order: the line read without the carriage
    returns and line feeds at its end, all of them and nothing else. *)
Theorem on_set_current_module_strips_line_ends
    (fs : PythonTaReporter.FileSystem) (module fp possible_config_path : string)
    (path_exists : bool) (lines : list string) (st : PythonTaReporter.State) :
  PythonTaReporter.fs_expand fs module = Some possible_config_path →
  PythonTaReporter.fs_exists fs possible_config_path = Some path_exists →
  PythonTaReporter.fs_readlines fs fp = Some lines →
  let r := PythonTaReporter.on_set_current_module fs module (Some fp) st in
  r.2 = PythonTaReporter.Returned
  ∧ Forall2
      (λ raw line,
         ends_with_eol line = false
         ∧ ∃ tail, raw = line +:+ tail ∧ all_eol tail = true)
      lines (PythonTaReporter.source_lines r.1).
Proof.
  intros Hexpand Hexists Hread r. subst r.
  unfold PythonTaReporter.on_set_current_module.
  rewrite Hexpand, Hexists.
  rewrite bool_decide_eq_false_2, andb_false_r by done. rewrite Hread. cbn.
  split; [done|]. apply Forall2_fmap_r, Forall_Forall2_diag, Forall_forall.
  intros raw _. split; [apply rstrip_eol_end | apply rstrip_eol_split].
Qed.

(** X13 at work: the three lines of [a.py]. *)
Lemma on_set_current_module_strips_line_ends_witness :
  PythonTaReporter.source_lines
    (PythonTaReporter.on_set_current_module Sample.one_file_fs "a" (Some "a.py")
       PythonTaReporter.init).1 = Sample.source
  ∧ Forall2
      (λ raw line,
         ends_with_eol line = false
         ∧ ∃ tail, raw = line +:+ tail ∧ all_eol tail = true)
      ["import os" +:+ PythonTaReporter._BREAK; PythonTaReporter._BREAK;
       "print(x + y)" +:+ PythonTaReporter._BREAK]
      Sample.source.
Proof.
  split; [reflexivity|].
  exact (proj2 (on_set_current_module_strips_line_ends Sample.one_file_fs "a" "a.py"
                  "a" false _ PythonTaReporter.init eq_refl eq_refl eq_refl)).
Defined.

(** X14. A switch repeated changes nothing more. Calling
    [on_set_current_module] again with the same module, path and file
    system, on the state the first call left, gives that state and the same
    outcome again. *)
Theorem on_set_current_module_idempotent
    (fs : PythonTaReporter.FileSystem) (module : string)
    (filepath : option string) (st : PythonTaReporter.State) :
  PythonTaReporter.on_set_current_module fs module filepath
    (PythonTaReporter.on_set_current_module fs module filepath st).1 =
  PythonTaReporter.on_set_current_module fs module filepath st.
Proof.
  unfold PythonTaReporter.on_set_current_module.
  destruct (PythonTaReporter.fs_expand fs module) as [p|]; [|done].
  destruct (PythonTaReporter.fs_exists fs p) as [path_exists|]; [|done].
  destruct (path_exists && bool_decide (filepath = None))%bool;
    [|destruct filepath as [fp|]; [|done]].
  - destruct (PythonTaReporter.fs_readlines fs p) as [lines|]; cbn;
      destruct (PythonTaReporter.messages st !! p) eqn:Hfp; cbn;
      rewrite ?Hfp, ?lookup_insert_eq; done.
  - destruct (PythonTaReporter.fs_readlines fs fp) as [lines|]; cbn;
      destruct (PythonTaReporter.messages st !! fp) eqn:Hfp; cbn;
      rewrite ?Hfp, ?lookup_insert_eq; done.
Qed.

(** ** Closing the output *)

(** X15. Only a file of its own is closed. On a fresh reporter,
    [set_output] followed by [on_close] closes the file that [set_output]
    opened for a path (inside a directory, the file of the default name),
    and nothing else: standard output, chosen by [None] or by a dash, and a
    stream passed by the caller are left open, and so is everything when
    opening the path raises. *)
Theorem on_close_after_set_output
    (OUTPUT_FILENAME : string) (os : Output.Os) (arg : Output.Arg) :
  let r := Output.set_output OUTPUT_FILENAME os arg Output.init in
  Output.closed (Output.on_close r.1) =
  match arg with
  | Output.ArgNone => []
  | Output.ArgIO _ => []
  | Output.ArgStr s =>
      if decide (s = "-") then []
      else if Output.writable os (Output.target OUTPUT_FILENAME os s)
           then [Output.Opened (Output.target OUTPUT_FILENAME os s)]
           else []
  end.
Proof.
  intros r. subst r. destruct arg as [|s|h]; [done| |done].
  unfold Output.set_output, Output.target. cbv zeta.
  case_bool_decide; [by rewrite decide_True|]. rewrite decide_False by done.
  by destruct (Output.writable os _).
Qed.

(** X16. The flag to close is never taken back. Once [set_output] has
    opened a file for a path, a later [set_output] that selects standard
    output or a stream of the caller leaves the flag set: [on_close] then
    closes that later stream, and the file opened first is not closed. *)
Theorem on_close_after_second_set_output
    (OUTPUT_FILENAME : string) (os : Output.Os) (s : string) (arg : Output.Arg)
    (st : Output.State) :
  s ≠ "-" →
  Output.writable os (Output.target OUTPUT_FILENAME os s) = true →
  arg = Output.ArgNone ∨ arg = Output.ArgStr "-" ∨ (∃ h, arg = Output.ArgIO h) →
  let st1 := (Output.set_output OUTPUT_FILENAME os (Output.ArgStr s) st).1 in
  let st2 := (Output.set_output OUTPUT_FILENAME os arg st1).1 in
  Output.out st1 = Output.Opened (Output.target OUTPUT_FILENAME os s)
  ∧ Output.should_close_out st2 = true
  ∧ Output.closed (Output.on_close st2) = Output.out st2 :: Output.closed st
  ∧ Output.out st2 =
      match arg with Output.ArgIO h => Output.Given h | _ => Output.Stdout end.
Proof.
  intros Hs Hw Harg st1 st2.
  assert (st1 = {| Output.out := Output.Opened (Output.target OUTPUT_FILENAME os s);
                   Output.should_close_out := true;
                   Output.closed := Output.closed st |}) as Hst1.
  { unfold st1, Output.set_output. unfold Output.target in Hw |- *. cbv zeta.
    rewrite bool_decide_eq_false_2 by done. by rewrite Hw. }
  subst st2. rewrite Hst1.
  destruct Harg as [->|[->|[h ->]]]; done.
Qed.

(** X16 at work: a report file, then standard output. *)
Lemma on_close_after_second_set_output_witness :
  let st1 := (Output.set_output plain_OUTPUT_FILENAME sample_os
                (Output.ArgStr "reports") Output.init).1 in
  let st2 := (Output.set_output plain_OUTPUT_FILENAME sample_os
                Output.ArgNone st1).1 in
  Output.out st1 = Output.Opened "reports/pyta_report.txt"
  ∧ Output.closed (Output.on_close st2) = [Output.Stdout].
Proof.
  intros st1 st2.
  destruct (on_close_after_second_set_output plain_OUTPUT_FILENAME sample_os
              "reports" Output.ArgNone Output.init)
    as (H1 & _ & H2 & _); [discriminate | reflexivity | by left |].
  split; [exact H1 | exact H2].
Defined.

(** ** Whether there are messages *)

Lemma on_set_current_module_view (fs : PythonTaReporter.FileSystem)
    (module : string) (filepath : option string) (st : PythonTaReporter.State)
    (f : string) :
  PythonTaReporter.messages_of
    (PythonTaReporter.on_set_current_module fs module filepath st).1 f =
  PythonTaReporter.messages_of st f.
Proof.
  unfold PythonTaReporter.on_set_current_module.
  destruct (PythonTaReporter.fs_expand fs module) as [p|]; [|done].
  destruct (PythonTaReporter.fs_exists fs p) as [path_exists|]; [|done].
  destruct (path_exists && bool_decide (filepath = None))%bool;
    [|destruct filepath as [fp|]; [|done]].
  - destruct (PythonTaReporter.fs_readlines fs _); apply touch_view.
  - destruct (PythonTaReporter.fs_readlines fs _); apply touch_view.
Qed.

(** X17. Only [handle_message] changes whether there are messages. A
    fresh reporter has none; [has_messages] holds exactly when some file
    has a message in its list, the empty lists made by file switches and by
    reads not counting; and neither [handle_node], whatever it does, nor
    [on_set_current_module], whatever its outcome, changes its value. *)
Theorem has_messages_frame
    (render_message : Entry → option NodeNG → list string → list SnippetLine)
    (add_line : option Z → LineType → Slice → string → string)
    (mdef : PythonTaReporter.MessageDefinition) (node : option NodeNG)
    (fs : PythonTaReporter.FileSystem) (module : string)
    (filepath : option string) (st : PythonTaReporter.State) :
  PythonTaReporter.has_messages PythonTaReporter.init = false
  ∧ (PythonTaReporter.has_messages st = true
     ↔ ∃ f m, m ∈ PythonTaReporter.messages_of st f)
  ∧ PythonTaReporter.has_messages
      (PythonTaReporter.handle_node render_message add_line mdef node st) =
    PythonTaReporter.has_messages st
  ∧ PythonTaReporter.has_messages
      (PythonTaReporter.on_set_current_module fs module filepath st).1 =
    PythonTaReporter.has_messages st.
Proof.
  split_and!.
  - done.
  - rewrite has_messages_view. split.
    + intros (f & Hf). exists f.
      destruct (PythonTaReporter.messages_of st f) as [|m l]; [done|].
      exists m. by left.
    + intros (f & m & Hm). exists f. intros Hnil. rewrite Hnil in Hm.
      by apply elem_of_nil in Hm.
  - apply eq_true_iff_eq. rewrite !has_messages_view.
    assert (∀ f, PythonTaReporter.messages_of
                   (PythonTaReporter.handle_node render_message add_line mdef node st) f
                 ≠ [] ↔ PythonTaReporter.messages_of st f ≠ []) as Hne.
    { intros f. destruct (decide (f = PythonTaReporter.current_file st)) as [->|Hf].
      - destruct (handle_node_current render_message add_line mdef node st)
          as [-> | (l0 & m & s & -> & _ & ->)]; [done|].
        split; intros _; by destruct l0.
      - by rewrite handle_node_other_file. }
    by setoid_rewrite Hne.
  - apply has_messages_ext, on_set_current_module_view.
Qed.

(** ** The snippet, line by line *)

Lemma fold_left_append (A : Type) (g : string → A → string) (f : A → string)
    (l : list A) (acc : string) :
  (∀ code_snippet x, g code_snippet x = code_snippet +:+ f x) →
  fold_left g l acc = acc +:+ join (f <$> l).
Proof.
  intros Hg. revert acc. induction l as [|x l IH]; intros acc; cbn.
  - by rewrite str_app_nil_r.
  - by rewrite IH, Hg, str_app_assoc.
Qed.

Lemma base_add_line_truthy (colourify : string → string → string)
    (lineno : option Z) (linetype : LineType) (slice_ : Slice) (text : string) :
  PyStr.truthy (PythonTaReporter._add_line colourify lineno linetype slice_ text)
  = true.
Proof. unfold PythonTaReporter._add_line. by apply truthy_app_r. Qed.

Lemma plain_add_line_truthy (colourify : string → string → string)
    (lineno : option Z) (linetype : LineType) (slice_ : Slice) (text : string) :
  PyStr.truthy (PlainReporter._add_line colourify lineno linetype slice_ text)
  = true.
Proof.
  unfold PlainReporter._add_line.
  destruct linetype; cbv zeta;
    auto using truthy_app_l, base_add_line_truthy.
Qed.

(** X18. The snippet is the rendered lines in order. [_build_snippet]
    gives the lines that [_add_line] renders for the records of
    [render_message], one after the other in the order of the records; with
    the [_add_line] of the base reporter or of the plain reporter it is
    empty exactly when [render_message] yields no record. *)
Theorem build_snippet_lines
    (render_message : Entry → option NodeNG → list string → list SnippetLine)
    (add_line : option Z → LineType → Slice → string → string)
    (colourify : string → string → string)
    (st : PythonTaReporter.State) (m : Entry) (node : option NodeNG) :
  let records := render_message m node (PythonTaReporter.source_lines st) in
  PythonTaReporter._build_snippet render_message add_line st m node =
    join ((λ '(lineno, slice_, line_type, text), add_line lineno line_type slice_ text)
            <$> records)
  ∧ (PythonTaReporter._build_snippet render_message
       (PythonTaReporter._add_line colourify) st m node = "" ↔ records = [])
  ∧ (PythonTaReporter._build_snippet render_message
       (PlainReporter._add_line colourify) st m node = "" ↔ records = []).
Proof.
  intros records.
  assert (∀ add,
    PythonTaReporter._build_snippet render_message add st m node =
    join ((λ '(lineno, slice_, line_type, text), add lineno line_type slice_ text)
            <$> records)) as Hjoin.
  { intros add. unfold PythonTaReporter._build_snippet. fold records.
    rewrite <- (str_app_nil_l (join _)). apply fold_left_append.
    by intros acc [[[lineno slice_] line_type] text]. }
  split; [apply Hjoin|].
  split; rewrite Hjoin; (split; [|by intros ->]);
    destruct records as [|[[[lineno slice_] line_type] text] rest]; try done; cbn;
    intros Hnil.
  - pose proof (base_add_line_truthy colourify lineno line_type slice_ text) as Ht.
    apply (truthy_app_l _ (join ((λ '(lineno, slice_, line_type, text),
             PythonTaReporter._add_line colourify lineno line_type slice_ text)
             <$> rest))) in Ht.
    unfold join in Ht. by rewrite Hnil in Ht.
  - pose proof (plain_add_line_truthy colourify lineno line_type slice_ text) as Ht.
    apply (truthy_app_l _ (join ((λ '(lineno, slice_, line_type, text),
             PlainReporter._add_line colourify lineno line_type slice_ text)
             <$> rest))) in Ht.
    unfold join in Ht. by rewrite Hnil in Ht.
Qed.

(** ** Recording after a switch *)

(** X19. Messages go to the file tracked when they arrive, and stay.
    A call of [on_set_current_module] with the path [fp] tracks [fp] when
    the module name can be expanded and tested for existence, whether the
    file can then be read or not; when either of those two steps raises,
    the file tracked before stays tracked. In both cases [handle_message]
    then appends to the list of the file tracked after the call, and the
    lists of all other files are as they were before the call. *)
Theorem handle_message_after_switch
    (fs : PythonTaReporter.FileSystem) (module fp : string) (m : Entry)
    (st : PythonTaReporter.State) (f : string) :
  let st1 := (PythonTaReporter.on_set_current_module fs module (Some fp) st).1 in
  PythonTaReporter.current_file st1 =
    match PythonTaReporter.fs_expand fs module with
    | None => PythonTaReporter.current_file st
    | Some possible_config_path =>
        match PythonTaReporter.fs_exists fs possible_config_path with
        | None => PythonTaReporter.current_file st
        | Some _ => fp
        end
    end
  ∧ PythonTaReporter.messages_of (PythonTaReporter.handle_message m st1) f =
    if decide (f = PythonTaReporter.current_file st1)
    then PythonTaReporter.messages_of st (PythonTaReporter.current_file st1) ++ [m]
    else PythonTaReporter.messages_of st f.
Proof.
  intros st1. split.
  - unfold st1, PythonTaReporter.on_set_current_module.
    destruct (PythonTaReporter.fs_expand fs module) as [p|]; [|done].
    destruct (PythonTaReporter.fs_exists fs p) as [path_exists|]; [|done].
    rewrite bool_decide_eq_false_2, andb_false_r by done.
    by destruct (PythonTaReporter.fs_readlines fs fp).
  - rewrite handle_message_view.
    assert (∀ g, PythonTaReporter.messages_of st1 g =
                 PythonTaReporter.messages_of st g) as Hview
      by (intros g; apply on_set_current_module_view).
    rewrite !Hview.
    by destruct (decide (f = PythonTaReporter.current_file st1)) as [->|?].
Qed.

(** X19 on the sample: a message that arrives after a switch whose module
    name cannot be expanded lands in the list of the file tracked before. *)
Example handle_message_after_failed_switch :
  let st1 := (PythonTaReporter.on_set_current_module Sample.no_home_fs
                "~nobody/b.py" (Some "b.py") Sample.tracking).1 in
  PythonTaReporter.messages_of
    (PythonTaReporter.handle_message Sample.undefined_variable st1) "a.py"
  = [Sample.undefined_variable]
  ∧ PythonTaReporter.messages_of
      (PythonTaReporter.handle_message Sample.undefined_variable st1) "b.py"
    = [].
Proof. split; reflexivity. Qed.

(** ** The heading of an occurrence *)

Lemma first_line_no_line_feed (s : string) :
  has_line_feed (PyStr.first_line s) = false.
Proof.
  induction s as [|c r IH]; [done|]. cbn.
  destruct (Ascii.eqb c "010") eqn:Hc; [done|]. cbn. by rewrite Hc.
Qed.

Lemma first_line_split (s : string) :
  s = PyStr.first_line s
  ∨ ∃ rest, s = PyStr.first_line s +:+ PythonTaReporter._BREAK +:+ rest.
Proof.
  induction s as [|c r IH]; [by left|]. cbn.
  destruct (Ascii.eqb_spec c "010") as [->|Hc].
  - right. by exists r.
  - destruct IH as [IH|[rest IH]].
    + left. by rewrite <- IH.
    + right. exists rest. by rewrite str_app_cons, <- IH.
Qed.

(** X20. Only the first line of the message text is shown. The heading of
    an occurrence is its line number and the text of the message up to its
    first line feed; what follows the line feed is dropped, and the heading
    has no line feed of its own before the line break that ends it. *)
Theorem occurrence_heading
    (colourify : string → string → string) (result : string) (m : Entry)
    (snippet : string) :
  snippet_attr m = Some (Some snippet) →
  let shown := PyStr.first_line (msg m) in
  PlainReporter.occurrence colourify result m =
    Some (result +:+ "  "
          +:+ colourify "bold" ("[Line " +:+ PyStr.of_int (line m) +:+ "] " +:+ shown)
          +:+ PythonTaReporter._BREAK +:+ snippet +:+ PythonTaReporter._BREAK)
  ∧ has_line_feed shown = false
  ∧ (msg m = shown
     ∨ ∃ rest, msg m = shown +:+ PythonTaReporter._BREAK +:+ rest).
Proof.
  intros Hattr shown.
  split_and!; [|apply first_line_no_line_feed|apply first_line_split].
  unfold PlainReporter.occurrence. rewrite Hattr. cbn.
  by rewrite !str_app_assoc.
Qed.

(** X20 at work: a message of two lines. *)
Lemma occurrence_heading_witness :
  PlainReporter.occurrence PythonTaReporter._colourify ""
    (NewMessage
       (Plain (mkMessage "E0001" "syntax-error"
                 ("invalid syntax" +:+ PythonTaReporter._BREAK +:+ "(details)")
                 "a.py" 2 0 None None))
       None (Some "")) =
  Some ("  [Line 2] invalid syntax" +:+ PythonTaReporter._BREAK
        +:+ PythonTaReporter._BREAK).
Proof.
  rewrite (proj1 (occurrence_heading PythonTaReporter._colourify ""
                    (NewMessage
                       (Plain (mkMessage "E0001" "syntax-error"
                                 ("invalid syntax" +:+ PythonTaReporter._BREAK
                                  +:+ "(details)")
                                 "a.py" 2 0 None None))
                       None (Some "")) "" eq_refl)).
  reflexivity.
Defined.

(** ** The snippet of a rule that has one *)

(** X21. A rule that is not exempt gets its rendered lines. When the last
    entry matches the rule supplied, its symbol is not in [NO_SNIPPET] and
    its text does not begin with [Invalid module], [handle_node] attaches
    the lines rendered for the records that [render_message] yields for the
    message, the node and the source buffer of that moment. *)
Theorem handle_node_renders_snippet
    (render_message : Entry → option NodeNG → list string → list SnippetLine)
    (add_line : option Z → LineType → Slice → string → string)
    (mdef : PythonTaReporter.MessageDefinition) (node : option NodeNG)
    (st : PythonTaReporter.State) (l0 : list Entry) (m : Entry) :
  PythonTaReporter.messages_of st (PythonTaReporter.current_file st) = l0 ++ [m] →
  msg_id m = PythonTaReporter.msgid mdef →
  symbol m ∉ NO_SNIPPET →
  PyStr.startswith (msg m) "Invalid module" = false →
  PythonTaReporter.messages_of
    (PythonTaReporter.handle_node render_message add_line mdef node st)
    (PythonTaReporter.current_file st) =
  l0 ++ [NewMessage m node
           (Some (join
              ((λ '(lineno, slice_, line_type, text),
                  add_line lineno line_type slice_ text)
               <$> render_message m node (PythonTaReporter.source_lines st))))].
Proof.
  intros Hl Hid Hsym Hmsg.
  rewrite (handle_node_matches _ _ _ _ _ l0 m Hl Hid).
  assert (str_in (symbol m) NO_SNIPPET = false) as ->
    by by apply bool_decide_eq_false.
  rewrite Hmsg. cbn [orb]. do 4 f_equal.
  unfold PythonTaReporter._build_snippet.
  rewrite <- (str_app_nil_l (join _)). apply fold_left_append.
  by intros acc [[[lineno slice_] line_type] text].
Qed.

(** X21 at work: the undefined variable on line 3 of the sample. *)
Lemma handle_node_renders_snippet_witness :
  PythonTaReporter.messages_of
    (PythonTaReporter.handle_node Sample.render_message Sample.add_line
       (PythonTaReporter.mkMessageDefinition "E0602") (Some 1%N)
       (PythonTaReporter.handle_message Sample.undefined_variable Sample.tracking))
    "a.py" =
  [NewMessage Sample.undefined_variable (Some 1%N) (Some Sample.snippet_line_3)].
Proof.
  assert (symbol Sample.undefined_variable ∉ NO_SNIPPET) as Hsym.
  { apply (bool_decide_eq_false_1 (_ ∈ NO_SNIPPET)). reflexivity. }
  exact (handle_node_renders_snippet Sample.render_message Sample.add_line
           (PythonTaReporter.mkMessageDefinition "E0602") (Some 1%N)
           (PythonTaReporter.handle_message Sample.undefined_variable Sample.tracking)
           [] Sample.undefined_variable eq_refl eq_refl Hsym eq_refl).
Defined.
